(** * Mayavi pipeline nodes and figure helpers

    A shallow embedding of [enthought/mayavi/core/base.py] (class [Base]) and of
    [enthought/mayavi/tools/figure.py] ([figure], [gcf], [clf]).

    Python objects live in a store indexed by references; a method is a
    computation over that store which either returns a value or raises, and in
    both cases hands back the store as the mutations left it.  The traits
    library, the state pickler, [cPickle], the engine and the camera helper are
    not part of these two files: they appear as collaborators whose operations
    are taken as given. *)

From Stdlib Require Import String Ascii ZArith DecimalString.
From stdpp Require Import base option list gmap strings.



(** ** Python strings *)

(** [len(s) == 0] and [len(s) > 0]. *)
Definition len_is_zero (s : string) : bool := Nat.eqb (String.length s) 0.
Definition len_is_pos (s : string) : bool := Nat.ltb 0 (String.length s).

(** [sub in s] for byte strings: some suffix of [s] starts with [sub]. *)
Fixpoint str_contains (sub s : string) : bool :=
  String.prefix sub s ||
  match s with
  | EmptyString => false
  | String _ s' => str_contains sub s'
  end.

(** Left-to-right scan of [s.replace(old, new)] for a non-empty [old]:
    [skip] counts the characters of the current match still to be dropped. *)
Fixpoint replace_from (old new : string) (skip : nat) (s : string) : string :=
  match s with
  | EmptyString => EmptyString
  | String c s' =>
      match skip with
      | S k => replace_from old new k s'
      | O =>
          if String.prefix old s
          then new +:+ replace_from old new (String.length old - 1) s'
          else String c (replace_from old new 0 s')
      end
  end.

(** With an empty [old] Python puts [new] before every character and at the
    end. *)
Fixpoint intersperse_str (new s : string) : string :=
  match s with
  | EmptyString => new
  | String c s' => new +:+ String c (intersperse_str new s')
  end.

Definition str_replace (old new s : string) : string :=
  match old with
  | EmptyString => intersperse_str new s
  | String _ _ => replace_from old new 0 s
  end.

(** The marker that [_visible_changed] keeps in the name of a hidden node. *)
Definition HIDDEN : string := " [Hidden]".

(** ["%s [Hidden]" % n] *)
Definition fmt_hidden (n : string) : string := n +:+ HIDDEN.

(** ['TVTK Scene %d' % k] *)
Definition fmt_tvtk_scene (k : Z) : string :=
  "TVTK Scene " +:+ NilZero.string_of_int (Z.to_int k).

(** ** Objects, store and computations *)

(** The exceptions that the two files raise or catch by name.  [ReferenceError]
    stands for reading through a reference that the store does not hold;
    [OtherError] for whatever else a collaborator may raise. *)
Inductive exn : Type :=
  | AttributeError
  | NotImplementedError
  | ReferenceError
  | OtherError (what : string).

Definition is_AttributeError (e : exn) : bool :=
  match e with AttributeError => true | _ => false end.

(** A reference to a Python object. *)
Definition ref : Type := nat.

(** The argument [name] of [figure]: [None], an integer or a string. *)
Inductive NameArg : Type :=
  | NameNone
  | NameInt (k : Z)
  | NameStr (s : string).

Section Model.

(** [State] is what the state pickler hands around; [Color] is a 3-tuple of
    floats. *)
Context {State Color : Type}.

(** The part of a [TVTKScene] that [figure] and [clf] write. *)
Record TVTKScene : Type := mkTVTKScene {
  background : Color;
  foreground : Color;
  disable_render : bool
}.

Definition with_background (c : Color) (s : TVTKScene) : TVTKScene :=
  mkTVTKScene c (foreground s) (disable_render s).
Definition with_foreground (c : Color) (s : TVTKScene) : TVTKScene :=
  mkTVTKScene (background s) c (disable_render s).
Definition with_disable_render (b : bool) (s : TVTKScene) : TVTKScene :=
  mkTVTKScene (background s) (foreground s) b.

(** The attributes of a [Base] instance that the methods below read or write.
    [cls] is [self.__class__.__name__].  [children] is read by [Base] but is
    not one of its traits: the subclasses that have children declare it, and
    an object of another class has no such attribute ([None] here).  [parent]
    is a [WeakRef]; [scene] an [Instance(TVTKScene)], [None] by default.  The
    menu and icon traits play no part here. *)
Record Node : Type := mkNode {
  cls : string;
  name : string;
  visible : bool;
  parent : option ref;
  _is_running : bool;
  _saved_state : string;
  children : option (list ref);
  scene : option TVTKScene
}.

Definition with_name (v : string) (n : Node) : Node :=
  mkNode (cls n) v (visible n) (parent n) (_is_running n) (_saved_state n)
         (children n) (scene n).
Definition with_visible (v : bool) (n : Node) : Node :=
  mkNode (cls n) (name n) v (parent n) (_is_running n) (_saved_state n)
         (children n) (scene n).
Definition with__is_running (v : bool) (n : Node) : Node :=
  mkNode (cls n) (name n) (visible n) (parent n) v (_saved_state n)
         (children n) (scene n).
Definition with__saved_state (v : string) (n : Node) : Node :=
  mkNode (cls n) (name n) (visible n) (parent n) (_is_running n) v
         (children n) (scene n).
Definition with_children (v : list ref) (n : Node) : Node :=
  mkNode (cls n) (name n) (visible n) (parent n) (_is_running n)
         (_saved_state n) (Some v) (scene n).
Definition with_scene (v : option TVTKScene) (n : Node) : Node :=
  mkNode (cls n) (name n) (visible n) (parent n) (_is_running n)
         (_saved_state n) (children n) v.

(** The engine as [figure] and [gcf] see it. *)
Record Engine : Type := mkEngine {
  scenes : list ref;
  current_scene : option ref
}.

(** One entry per state handed to [__set_pure_state__] or
    [state_pickler.set_state]: the object, its [running] flag at that moment,
    and the state. *)
Inductive Event : Type :=
  | Applied (self : ref) (running_then : bool) (st : State).

Record World : Type := mkWorld {
  objs : gmap ref Node;
  engine : Engine;
  log : list Event
}.

Definition with_objs (o : gmap ref Node) (w : World) : World :=
  mkWorld o (engine w) (log w).
Definition with_engine (e : Engine) (w : World) : World :=
  mkWorld (objs w) e (log w).
Definition with_log (l : list Event) (w : World) : World :=
  mkWorld (objs w) (engine w) l.

(** A call either returns or raises; the store comes back either way. *)
Inductive Outcome (A : Type) : Type :=
  | Val (a : A) (w : World)
  | Exc (e : exn) (w : World).
Arguments Val {A} a w.
Arguments Exc {A} e w.

Definition M (A : Type) : Type := World -> Outcome A.

Definition ret {A} (a : A) : M A := fun w => Val a w.

Definition bind {A B} (m : M A) (k : A -> M B) : M B :=
  fun w =>
    match m w with
    | Val a w' => k a w'
    | Exc e w' => Exc e w'
    end.

Definition raise {A} (e : exn) : M A := fun w => Exc e w.

(** [try: body  except <handles>: handler] *)
Definition try_except {A} (body : M A) (handles : exn -> bool) (handler : M A)
  : M A :=
  fun w =>
    match body w with
    | Val a w' => Val a w'
    | Exc e w' => if handles e then handler w' else Exc e w'
    end.

Definition pass : M unit := ret tt.

Notation "x <- m ;; k" := (bind m (fun x => k))
  (at level 100, m at next level, right associativity).
Notation "m ;; k" := (bind m (fun _ => k))
  (at level 100, right associativity).

(** ** Attribute access *)

(** [self.attr]: read a trait of the object behind [self]. *)
Definition getattr {A} (self : ref) (attr : Node -> A) : M A :=
  fun w =>
    match objs w !! self with
    | Some n => Val (attr n) w
    | None => Exc ReferenceError w
    end.

(** [self.attr = v], written as the update of the object behind [self]. *)
Definition setattr (self : ref) (upd : Node -> Node) : M unit :=
  fun w =>
    match objs w !! self with
    | Some n => Val tt (with_objs (<[self := upd n]> (objs w)) w)
    | None => Exc ReferenceError w
    end.

(** The same on a value that may be [None]: Python raises [AttributeError]
    when an attribute of [None] is read or assigned. *)
Definition getattr_py {A} (o : option ref) (attr : Node -> A) : M A :=
  match o with
  | Some r => getattr r attr
  | None => raise AttributeError
  end.

Definition setattr_py (o : option ref) (upd : Node -> Node) : M unit :=
  match o with
  | Some r => setattr r upd
  | None => raise AttributeError
  end.

(** [o.children]: [AttributeError] when [o] is [None] or has no such
    attribute. *)
Definition get_children (o : option ref) : M (list ref) :=
  c <- getattr_py o children ;;
  match c with
  | Some l => ret l
  | None => raise AttributeError
  end.

(** [o.scene.attr = v] *)
Definition setattr_scene (o : option ref) (upd : TVTKScene -> TVTKScene)
  : M unit :=
  s <- getattr_py o scene ;;
  match s with
  | Some tv => setattr_py o (with_scene (Some (upd tv)))
  | None => raise AttributeError
  end.

(** Reading a [WeakRef] trait gives [None] once the referent is gone. *)
Definition get_parent (self : ref) : M (option ref) :=
  p <- getattr self parent ;;
  fun w =>
    match p with
    | Some r => if decide (is_Some (objs w !! r)) then Val (Some r) w
                else Val None w
    | None => Val None w
    end.

(** ** Collaborators of [base.py] *)

(** [state_pickler] and [cPickle].  [update_state] works in place in Python;
    here it returns the updated state.  [set_state] assigns attributes of the
    object it is given. *)
Class Pickling : Type := {
  loads_state : string -> State;
  update_state : State -> State;
  get_state : Node -> State;
  set_state : Node -> State -> Node;
  cPickle_dumps : State -> string;
  cPickle_loads : string -> State
}.

(** What subclasses may add, by class name: a [children] list trait, a
    [__set_pure_state__] method (so that [hasattr(self, '__set_pure_state__')]
    holds) and an override of [remove_child]. *)
Class Subclasses : Type := {
  declares_children : string -> bool;
  __set_pure_state__ : string -> option (Node -> State -> Node);
  remove_child_override : string -> option (ref -> ref -> M unit)
}.

Context `{!Pickling} `{!Subclasses}.

(** [Base] itself declares no [children] (lines 62-118). *)
Definition class_declares_children (c : string) : bool :=
  negb (String.eqb c "Base") && declares_children c.

(** The trait defaults: what [cls()] yields before any assignment.  A list
    trait starts empty. *)
Definition trait_defaults (c : string) : Node :=
  mkNode c "" true None false ""
         (if class_declares_children c then Some [] else None) None.

(** [cls()]: a new object with the trait defaults, at a reference the store
    does not use yet. *)
Definition allocate (c : string) : M ref :=
  fun w =>
    let r := fresh (dom (objs w)) in
    Val r (with_objs (<[r := trait_defaults c]> (objs w)) w).

(** ** [Base] *)

(** [Base] has no [__init__] of its own: the call reaches [HasTraits.__init__],
    which assigns the traits given as keyword arguments, here none. *)
Definition __init__ (self : ref) : M unit :=
  getattr self (fun _ => tt).

(** [self.__class__()] *)
Definition instantiate (c : string) : M ref :=
  new <- allocate c ;;
  __init__ new ;;
  ret new.

Definition _get_running (self : ref) : M bool :=
  getattr self _is_running.

(** [trait_property_changed('running', old, new)] notifies listeners; [Base]
    registers none on [running]. *)
Definition _set_running (self : ref) (new : bool) : M unit :=
  cur <- getattr self _is_running ;;
  if Bool.eqb cur new then ret tt
  else setattr self (with__is_running new).

(** Bookkeeping for the statements below: note that [state] is about to be
    applied to [self], with the value of [self.running] at this point. *)
Definition note_applied (self : ref) (state : State) : M unit :=
  r <- _get_running self ;;
  fun w => Val tt (with_log (log w ++ [Applied self r state]) w).

Definition _load_saved_state (self : ref) : M unit :=
  saved_state <- getattr self _saved_state ;;
  if len_is_pos saved_state then
    let state := cPickle_loads saved_state in
    c <- getattr self cls ;;
    note_applied self state ;;
    match __set_pure_state__ c with
    | Some set_pure => setattr self (fun n => set_pure n state)
    | None => setattr self (fun n => set_state n state)
    end ;;
    setattr self (with__saved_state "")
  else ret tt.

Definition __setstate__ (self : ref) (str_state : string) : M unit :=
  __init__ self ;;
  let state := loads_state str_state in
  let state := update_state state in
  setattr self (with__saved_state (cPickle_dumps state)) ;;
  running <- _get_running self ;;
  if running then _load_saved_state self else ret tt.

(** [memo] is not used by the method. *)
Definition __deepcopy__ (self : ref) (memo : list (ref * ref)) : M ref :=
  c <- getattr self cls ;;
  new <- instantiate c ;;
  saved_state <- getattr self _saved_state ;;
  saved_state <-
    (if len_is_zero saved_state then
       state <- getattr self get_state ;;
       ret (cPickle_dumps state)
     else ret saved_state) ;;
  setattr new (with__saved_state saved_state) ;;
  running <- _get_running new ;;
  (if running then _load_saved_state new else ret tt) ;;
  ret new.

Definition start (self : ref) : M unit :=
  _set_running self true ;;
  _load_saved_state self.

Definition stop (self : ref) : M unit :=
  _set_running self false.


Definition remove_child (self child : ref) : M unit :=
  raise NotImplementedError.

(** [obj.remove_child(child)]: the method of the class of [obj]. *)
Definition call_remove_child (obj child : ref) : M unit :=
  c <- getattr obj cls ;;
  match remove_child_override c with
  | Some method => method obj child
  | None => remove_child obj child
  end.

Definition remove (self : ref) : M unit :=
  p <- get_parent self ;;
  match p with
  | Some p => call_remove_child p self
  | None => ret tt
  end.

(** [node] is the tree node asking; the method does not look at it. *)
Definition tno_get_label (self : ref) (node : option ref) : M string :=
  nm <- getattr self name ;;
  (if String.eqb nm "" then
     c <- getattr self cls ;;
     setattr self (with_name c)
   else ret tt) ;;
  getattr self name.

Definition _get_children_ui_list (self : ref) : M (list ref) :=
  get_children (Some self).

Definition _visible_changed (self : ref) (value : bool) : M unit :=
  nm <- getattr self name ;;
  (if len_is_zero nm then _ <- tno_get_label self None ;; ret tt
   else ret tt) ;;
  if value then
    nm <- getattr self name ;;
    setattr self (with_name (str_replace HIDDEN "" nm))
  else
    n <- getattr self name ;;
    if negb (str_contains HIDDEN n) then setattr self (with_name (fmt_hidden n))
    else ret tt.

(** [self.visible = v]: traits stores the value and calls [_visible_changed]
    when it differs from the old one. *)
Definition set_visible (self : ref) (v : bool) : M unit :=
  old <- getattr self visible ;;
  setattr self (with_visible v) ;;
  if Bool.eqb old v then ret tt else _visible_changed self v.

Definition _hideshow (self : ref) : M unit :=
  v <- getattr self visible ;;
  if v then set_visible self false else set_visible self true.

(** ** [figure.py] *)

(** The engine ([get_engine], [engine.new_scene]), the camera helper [view]
    and the preferences ([options]) are defined elsewhere.  [get_engine] may
    start the engine; [new_scene] and [view] act on the store as they see
    fit. *)
Class Session : Type := {
  get_engine : M unit;
  engine_new_scene : M unit;
  view : Z -> Z -> M unit;
  options_background_color : Color;
  options_foreground_color : Color
}.

Context `{!Session}.

(** [engine.scenes], [engine.current_scene] and the assignment to the
    latter. *)
Definition engine_scenes : M (list ref) :=
  fun w => Val (scenes (engine w)) w.

Definition engine_current_scene : M (option ref) :=
  fun w => Val (current_scene (engine w)) w.

Definition set_engine_current_scene (s : option ref) : M unit :=
  fun w => Val tt (with_engine (mkEngine (scenes (engine w)) s) w).

(** The [for ... else] of [figure]: the first scene whose name is [nm], if
    there is one. *)
Fixpoint find_scene (nm : string) (l : list ref) : M (option ref) :=
  match l with
  | [] => ret None
  | scene :: rest =>
      n <- getattr scene name ;;
      if String.eqb n nm then ret (Some scene) else find_scene nm rest
  end.

Definition figure (name : NameArg) (background foreground : option Color)
  : M (option ref) :=
  get_engine ;;
  let name :=
    match name with
    | NameInt k => NameStr (fmt_tvtk_scene k)
    | _ => name
    end in
  match name with
  | NameStr nm =>
      l <- engine_scenes ;;
      found <- find_scene nm l ;;
      match found with
      | Some scene => set_engine_current_scene (Some scene)
      | None =>
          engine_new_scene ;;
          cur <- engine_current_scene ;;
          setattr_py cur (with_name nm)
      end
  | _ => engine_new_scene
  end ;;
  view 40 50 ;;
  fig <- engine_current_scene ;;
  let background :=
    match background with
    | None => options_background_color
    | Some c => c
    end in
  let foreground :=
    match foreground with
    | None => options_foreground_color
    | Some c => c
    end in
  setattr_scene fig (with_background background) ;;
  setattr_scene fig (with_foreground foreground) ;;
  ret fig.

Definition gcf : M (option ref) :=
  get_engine ;;
  scene <- engine_current_scene ;;
  match scene with
  | None => figure NameNone None None
  | Some _ => ret scene
  end.

(** The body of the [try] in [clf].  [scene.children[:] = []] reads the list
    and empties it. *)
Definition clf_body : M unit :=
  scene <- gcf ;;
  setattr_scene scene (with_disable_render true) ;;
  _ <- get_children scene ;;
  setattr_py scene (with_children []) ;;
  setattr_scene scene (with_disable_render false).

Definition clf : M unit :=
  try_except clf_body is_AttributeError pass.

(** ** The rest of [base.py] and [figure.py] *)

(** The attributes that [__get_pure_state__] drops from the copy of
    [self.__dict__]. *)
Definition pure_state_dropped : list string :=
  ["scene"; "_is_running"; "__sync_trait__"; "__traits_listener__";
   "_icon_path"; "_menu"; "_HideShowAction"; "menu_helper"; "parent";
   "parent_"].

(** [d = self.__dict__.copy()], then [d.pop(attr, None)] for each of the
    names: a name that is not a key is passed over. *)
Definition __get_pure_state__ {V : Type} (__dict__ : gmap string V)
  : gmap string V :=
  foldl (fun d attr => delete attr d) __dict__ pure_state_dropped.

Definition IndexError : exn := OtherError "IndexError".

(** [del l[i]]: a negative index counts from the end; [None] stands for the
    [IndexError] of an index out of range. *)
Definition py_del {A : Type} (l : list A) (i : Z) : option (list A) :=
  let n := Z.of_nat (length l) in
  let j := if (i <? 0)%Z then (i + n)%Z else i in
  if ((0 <=? j)%Z && (j <? n)%Z)%bool then Some (delete (Z.to_nat j) l)
  else None.

(** The getter of the property [children_ui_list] is [_get_children_ui_list]
    of the class of the object: a subclass may extend the list it returns
    with an [AdderNode] (lines 84-85, 316). *)
Class TreeView : Type := {
  children_ui_list_override : string -> option (ref -> M (list ref))
}.

Context `{!TreeView}.

(** [obj.children_ui_list] *)
Definition get_children_ui_list (obj : ref) : M (list ref) :=
  c <- getattr obj cls ;;
  match children_ui_list_override c with
  | Some getter => getter obj
  | None => _get_children_ui_list obj
  end.

Definition tno_delete_child (self : ref) (node : option ref) (index : Z)
  : M unit :=
  ui <- get_children_ui_list self ;;
  cs <- get_children (Some self) ;;
  if Nat.ltb (length cs) (length ui) then
    cs <- get_children (Some self) ;;
    match py_del cs (index - 1) with
    | Some cs' => setattr self (with_children cs')
    | None => raise IndexError
    end
  else
    cs <- get_children (Some self) ;;
    match py_del cs index with
    | Some cs' => setattr self (with_children cs')
    | None => raise IndexError
    end.

(** The render window: [s.render()] and [s.save(filename, size=size,
    **kwargs)] belong to the rendering toolkit. *)
Class Rendering : Type := {
  tvtk_render : TVTKScene -> M unit;
  tvtk_save :
    TVTKScene -> string -> option (Z * Z) -> list (string * string) -> M unit
}.

Context `{!Rendering}.

Definition render (self : ref) : M unit :=
  s <- getattr self scene ;;
  match s with
  | Some tv => tvtk_render tv
  | None => ret tt
  end.

(** [gcf().render()] *)
Definition draw : M unit :=
  fig <- gcf ;;
  match fig with
  | Some f => render f
  | None => raise AttributeError
  end.

(** [gcf().scene.save(filename, size=size, **kwargs)] *)
Definition savefig (filename : string) (size : option (Z * Z))
    (kwargs : list (string * string)) : M unit :=
  fig <- gcf ;;
  s <- getattr_py fig scene ;;
  match s with
  | Some tv => tvtk_save tv filename size kwargs
  | None => raise AttributeError
  end.

End Model.

Arguments TVTKScene Color : clear implicits.
Arguments Node Color : clear implicits.
Arguments Event State : clear implicits.
Arguments World State Color : clear implicits.
Arguments Outcome State Color A : clear implicits.
Arguments M State Color A : clear implicits.
Arguments Pickling State Color : clear implicits.
Arguments Subclasses State Color : clear implicits.
Arguments Session State Color : clear implicits.
Arguments Rendering State Color : clear implicits.
Arguments TreeView State Color : clear implicits.
Arguments Val {State Color A} a w.
Arguments Exc {State Color A} e w.

(** ** Vocabulary of the statements *)

Section Vocabulary.

Context {State Color : Type}.
Context `{!Pickling State Color} `{!Subclasses State Color}.

Implicit Types (w : World State Color) (n : Node Color) (self : ref).

(** The store in which a call ended. *)
Definition world_of {A} (o : Outcome State Color A) : World State Color :=
  match o with
  | Val _ w => w
  | Exc _ w => w
  end.

(** [w] with the object behind [self] replaced by [n]. *)
Definition put (self : ref) (n : Node Color) (w : World State Color)
  : World State Color :=
  with_objs (<[self := n]> (objs w)) w.

(** The object after the [if hasattr(self, '__set_pure_state__')] statement of
    [_load_saved_state]. *)
Definition state_applied (n : Node Color) (st : State) : Node Color :=
  match __set_pure_state__ (cls n) with
  | Some set_pure => set_pure n st
  | None => set_state n st
  end.

(** The state was applied while the object was running. *)
Definition while_running (e : Event State) : Prop :=
  match e with
  | Applied _ r _ => r = true
  end.

(** No running object holds a saved state. *)
Definition no_pending_state (w : World State Color) : Prop :=
  forall r n, objs w !! r = Some n -> _is_running n = true ->
              _saved_state n = "".






(** [__set_pure_state__] and [set_state] do not assign [_is_running]; the
    pure state has no such entry, [__get_pure_state__] drops it. *)
Definition setters_keep_running : Prop :=
  forall (n : Node Color) (st : State),
    _is_running (state_applied n st) = _is_running n.

(** Every node has a list of children, which [children_ui_list] returns. *)
Definition every_node_has_children : Prop :=
  forall (w : World State Color) self n,
    objs w !! self = Some n ->
    exists cs, children n = Some cs /\
               _get_children_ui_list self w = Val cs w.

(** Hiding and then showing a node gives back the name it had. *)
Definition hide_show_restores_name : Prop :=
  forall (w : World State Color) self n,
    objs w !! self = Some n -> name n <> "" -> visible n = true ->
    exists w1 w2,
      set_visible self false w = Val tt w1 /\
      set_visible self true w1 = Val tt w2 /\
      name <$> (objs w2 !! self) = Some (name n).

(** The store after [_load_saved_state] on the object [n] behind [self]. *)
Definition after_load self n w : World State Color :=
  if len_is_pos (_saved_state n) then
    let st := cPickle_loads (_saved_state n) in
    with_log (log w ++ [Applied self (_is_running n) st])
             (put self (with__saved_state "" (state_applied n st)) w)
  else w.

(** The serialized state that [__setstate__] stores. *)
Definition blob_of (str_state : string) : string :=
  cPickle_dumps (update_state (loads_state str_state)).

(** The blob that [__deepcopy__] gives to the copy of [n]. *)
Definition copied_blob n : string :=
  if len_is_zero (_saved_state n) then cPickle_dumps (get_state n)
  else _saved_state n.

(** What [tno_get_label] returns for [n]. *)
Definition label n : string :=
  if String.eqb (name n) "" then cls n else name n.

(** The name that [_visible_changed] leaves on [n]. *)
Definition name_after (value : bool) n : string :=
  let nm := if len_is_zero (name n) then label n else name n in
  if value then str_replace HIDDEN "" nm
  else if negb (str_contains HIDDEN nm) then fmt_hidden nm else nm.

(** The object that [self.visible = v] leaves behind [self]. *)
Definition visible_set (v : bool) n : Node Color :=
  if Bool.eqb (visible n) v then with_visible v n
  else with_name (name_after v (with_visible v n)) (with_visible v n).

(** Every state that the call applies is applied to a running object. *)
Definition applies_only_while_running {A} (m : M State Color A) : Prop :=
  forall w, exists l,
    log (world_of (m w)) = log w ++ l /\ Forall while_running l.



End Vocabulary.

Section FigureVocabulary.

Context {State Color : Type}.
Context `{!Session State Color}.

(** The colour that [figure] assigns: the one given, or the default. *)
Definition colour_or (default : Color) (given : option Color) : Color :=
  match given with
  | Some c => c
  | None => default
  end.

(** The scene after the two colour assignments of [figure]. *)
Definition coloured (bg fg : option Color) (tv : TVTKScene Color)
    (n : Node Color) : Node Color :=
  with_scene
    (Some (mkTVTKScene (colour_or options_background_color bg)
                       (colour_or options_foreground_color fg)
                       (disable_render tv))) n.

End FigureVocabulary.

(** ** A small session to run the model on *)

(** Colours are triples of numbers, states are strings, and a pickle is the
    state behind a one-letter header; [set_state] writes the state into the
    name.  The class [Scene] overrides [remove_child]. *)
Definition demo_Color : Type := (nat * nat * nat)%type.

Definition demo_loads (s : string) : string :=
  match s with
  | String _ st => st
  | EmptyString => EmptyString
  end.

#[local] Instance demo_pickling : Pickling string demo_Color := {|
  loads_state s := s;
  update_state st := st;
  get_state n := name n;
  set_state n st := with_name st n;
  cPickle_dumps st := String "S" st;
  cPickle_loads := demo_loads
|}.

Definition Scene_remove_child (obj child : ref) : M string demo_Color unit :=
  bind (get_children (Some obj))
       (fun l =>
          setattr obj
            (with_children
               (List.filter (fun c => negb (Nat.eqb c child)) l))).

#[local] Instance demo_subclasses : Subclasses string demo_Color := {|
  declares_children c := String.eqb c "Scene";
  __set_pure_state__ _ := None;
  remove_child_override c :=
    if String.eqb c "Scene" then Some Scene_remove_child else None
|}.

Definition demo_tvtk : TVTKScene demo_Color :=
  mkTVTKScene (0, 0, 0) (1, 1, 1) false.

(** [engine.new_scene()]: a scene with a render window, appended to the
    scenes of the engine and made current. *)
Definition demo_new_scene : M string demo_Color unit :=
  fun w =>
    let r := fresh (dom (objs w)) in
    let n := with_scene (Some demo_tvtk) (trait_defaults "Scene") in
    Val tt (mkWorld (<[r := n]> (objs w))
                    (mkEngine (scenes (engine w) ++ [r]) (Some r))
                    (log w)).

#[local] Instance demo_session : Session string demo_Color := {|
  get_engine := ret tt;
  engine_new_scene := demo_new_scene;
  view _ _ := ret tt;
  options_background_color := (5, 5, 5);
  options_foreground_color := (9, 9, 9)
|}.

(** The tree view of a [Scene] starts with an adder node, here the
    reference 99. *)
Definition Scene_children_ui_list (obj : ref)
  : M string demo_Color (list ref) :=
  bind (get_children (Some obj)) (fun cs => ret (99 :: cs)).

#[local] Instance demo_tree_view : TreeView string demo_Color := {|
  children_ui_list_override c :=
    if String.eqb c "Scene" then Some Scene_children_ui_list else None
|}.

(** A render window whose [render] and [save] leave the store alone. *)
#[local] Instance demo_rendering : Rendering string demo_Color := {|
  tvtk_render _ := ret tt;
  tvtk_save _ _ _ _ := ret tt
|}.

(** A stopped module named ["glyph"], alone in the store. *)
Definition demo_node : Node demo_Color :=
  with_name "glyph" (trait_defaults "Glyph").

Definition demo_world : World string demo_Color :=
  mkWorld {[ 0 := demo_node ]} (mkEngine [] None) [].

(** A stopped object that holds the pickle ["Sabc"]. *)
Definition pending_world : World string demo_Color :=
  mkWorld {[ 0 := with__saved_state "Sabc" demo_node ]} (mkEngine [] None) [].

(** ["glyph"], running. *)
Definition running_world : World string demo_Color :=
  mkWorld {[ 0 := with__is_running true demo_node ]} (mkEngine [] None) [].

(** A new module, not named yet. *)
Definition unnamed_node : Node demo_Color := trait_defaults "Glyph".

Definition unnamed_world : World string demo_Color :=
  mkWorld {[ 0 := unnamed_node ]} (mkEngine [] None) [].

(** An object of a class that shows its two children as they are. *)
Definition plain_parent : Node demo_Color :=
  mkNode "Source" "source" true None false "" (Some [7; 8]) None.

Definition plain_world : World string demo_Color :=
  mkWorld {[ 0 := plain_parent ]} (mkEngine [] None) [].

(** A current scene without a render window. *)
Definition windowless_scene : Node demo_Color :=
  with_children [1] (trait_defaults "Scene").

Definition windowless_world : World string demo_Color :=
  mkWorld {[ 0 := windowless_scene ]} (mkEngine [0] (Some 0)) [].

(** A current figure with a render window but without a [children] list. *)
Definition childless_figure : Node demo_Color :=
  with_scene (Some demo_tvtk) (trait_defaults "Glyph").

Definition childless_world : World string demo_Color :=
  mkWorld {[ 0 := childless_figure ]} (mkEngine [0] (Some 0)) [].

(** A visible node that a user has renamed to ["x [Hidden]"]. *)
Definition marked_node : Node demo_Color :=
  with_name "x [Hidden]" (trait_defaults "Glyph").

Definition marked_world : World string demo_Color :=
  mkWorld {[ 0 := marked_node ]} (mkEngine [] None) [].

(** A scene at 0 with one child at 1. *)
Definition demo_scene : Node demo_Color :=
  with_children [1]
    (with_scene (Some demo_tvtk) (with_name "TVTK Scene 1"
                                            (trait_defaults "Scene"))).

Definition demo_child : Node demo_Color :=
  mkNode "Glyph" "glyph" true (Some 0) false "" None None.

Definition family_world : World string demo_Color :=
  mkWorld (<[ 1 := demo_child ]> {[ 0 := demo_scene ]})
          (mkEngine [0] (Some 0)) [].

(** ** Properties *)


Lemma len_is_zero_spec s : len_is_zero s = true <-> s = "".
Proof. destruct s; unfold len_is_zero; simpl; split; intros; congruence. Qed.

Lemma len_is_pos_spec s : len_is_pos s = true <-> s <> "".
Proof. destruct s; unfold len_is_pos; cbn; split; intros; try done. Qed.

Lemma len_is_pos_zero s : len_is_pos s = negb (len_is_zero s).
Proof. by destruct s. Qed.

Lemma prefix_refl s : String.prefix s s = true.
Proof.
  induction s as [|c s IH]; simpl; [done|].
  destruct (ascii_dec c c); [done | congruence].
Qed.

Lemma prefix_app s t : String.prefix s (s +:+ t) = true.
Proof.
  induction s as [|c s IH]; simpl; [by destruct t|].
  destruct (ascii_dec c c); [done | congruence].
Qed.

Lemma str_contains_app_r sub s : str_contains sub (s +:+ sub) = true.
Proof.
  induction s as [|c s IH]; simpl.
  - destruct sub; simpl; [done|]. rewrite prefix_refl.
    destruct (ascii_dec _ _); [done | congruence].
  - rewrite IH. apply orb_true_r.
Qed.

Lemma str_contains_tail sub c s :
  str_contains sub (String c s) = false ->
  String.prefix sub (String c s) = false /\ str_contains sub s = false.
Proof.
  cbn [str_contains]. intros H. by apply orb_false_elim in H.
Qed.

Lemma append_cons c s t : String c s +:+ t = String c (s +:+ t).
Proof. reflexivity. Qed.

Lemma append_nil t : "" +:+ t = t.
Proof. reflexivity. Qed.

(** An occurrence of the marker cannot begin inside [s] and end inside a
    marker appended to [s]: the marker opens with its only blank. *)
Lemma no_straddle s :
  s <> "" -> String.prefix HIDDEN s = false ->
  String.prefix HIDDEN (s +:+ HIDDEN) = false.
Proof.
  unfold HIDDEN.
  intros Hne Hp.
  destruct s as [|c s]; [done|]. clear Hne.
  repeat
    (rewrite append_cons; cbn [String.prefix] in *;
     match goal with
     | |- context [ascii_dec ?a ?b] =>
         destruct (ascii_dec a b); [subst | done]
     end;
     destruct s as [|c s]; [by vm_compute|]).
  cbn in Hp. done.
Qed.

Lemma replace_hidden_app n :
  str_contains HIDDEN n = false ->
  str_replace HIDDEN "" (n +:+ HIDDEN) = n.
Proof.
  change (str_replace HIDDEN "" (n +:+ HIDDEN))
    with (replace_from HIDDEN "" 0 (n +:+ HIDDEN)).
  induction n as [|c n IH]; intros Hc.
  - reflexivity.
  - apply str_contains_tail in Hc as [Hp Hc].
    rewrite append_cons. cbn [replace_from].
    rewrite <- append_cons, no_straddle by done.
    rewrite IH by done. reflexivity.
Qed.

Lemma replace_hidden_absent n :
  str_contains HIDDEN n = false -> str_replace HIDDEN "" n = n.
Proof.
  change (str_replace HIDDEN "" n) with (replace_from HIDDEN "" 0 n).
  induction n as [|c n IH]; intros Hc; [done|].
  apply str_contains_tail in Hc as [Hp Hc].
  cbn [replace_from]. rewrite Hp, IH by done. reflexivity.
Qed.

Section Properties.

Context {State Color : Type}.
Context `{!Pickling State Color} `{!Subclasses State Color}.
Context `{!Session State Color}.

Implicit Types (w : World State Color) (n : Node Color) (self : ref).

(** *** Reading and writing the store *)

Lemma getattr_at {A} w self n (attr : Node Color -> A) :
  objs w !! self = Some n -> getattr self attr w = Val (attr n) w.
Proof. intros E. unfold getattr. by rewrite E. Qed.

Lemma getattr_dangling {A} w self (attr : Node Color -> A) :
  objs w !! self = None -> getattr self attr w = Exc ReferenceError w.
Proof. intros E. unfold getattr. by rewrite E. Qed.

Lemma setattr_at w self n upd :
  objs w !! self = Some n -> setattr self upd w = Val tt (put self (upd n) w).
Proof. intros E. unfold setattr. by rewrite E. Qed.


Lemma get_children_at w self n cs :
  objs w !! self = Some n -> children n = Some cs ->
  get_children (Some self) w = Val cs w.
Proof.
  intros E C. unfold get_children, bind. cbn.
  by rewrite (getattr_at _ _ n), C.
Qed.

Lemma get_children_absent w self n :
  objs w !! self = Some n -> children n = None ->
  get_children (Some self) w = Exc AttributeError w.
Proof.
  intros E C. unfold get_children, bind. cbn.
  by rewrite (getattr_at _ _ n), C.
Qed.


Lemma objs_put_eq w self n : objs (put self n w) !! self = Some n.
Proof. apply lookup_insert_eq. Qed.

Lemma objs_put_ne w self n r : self <> r -> objs (put self n w) !! r = objs w !! r.
Proof. intros. by apply lookup_insert_ne. Qed.

Lemma put_put w self n1 n2 : put self n2 (put self n1 w) = put self n2 w.
Proof. unfold put, with_objs. cbn. by rewrite insert_insert_eq. Qed.

Lemma put_id w self n : objs w !! self = Some n -> put self n w = w.
Proof.
  intros E. destruct w as [o e l]. unfold put, with_objs. cbn in *.
  by rewrite insert_id.
Qed.

Lemma engine_put w self n : engine (put self n w) = engine w.
Proof. reflexivity. Qed.

Lemma log_put w self n : log (put self n w) = log w.
Proof. reflexivity. Qed.

Lemma with__is_running_id n : with__is_running (_is_running n) n = n.
Proof. by destruct n. Qed.

(** *** The methods at an object of the store *)

Lemma _set_running_at w self n b :
  objs w !! self = Some n ->
  _set_running self b w = Val tt (put self (with__is_running b n) w).
Proof.
  intros E. unfold _set_running, bind. rewrite (getattr_at _ _ n) by done.
  destruct (Bool.eqb_spec (_is_running n) b) as [<-|Hne].
  - by rewrite with__is_running_id, put_id.
  - by rewrite (setattr_at _ _ n).
Qed.

Lemma _load_saved_state_at w self n :
  objs w !! self = Some n ->
  _load_saved_state self w = Val tt (after_load self n w).
Proof.
  intros E. unfold _load_saved_state, after_load, bind.
  rewrite (getattr_at _ _ n) by done.
  destruct (len_is_pos (_saved_state n)); [|done].
  rewrite (getattr_at _ _ n) by done.
  unfold note_applied, _get_running, bind.
  rewrite (getattr_at _ _ n) by done. cbn.
  unfold state_applied.
  destruct (__set_pure_state__ (cls n)) as [f|];
    (rewrite (setattr_at _ _ n) by done);
    (erewrite setattr_at by apply objs_put_eq);
    by rewrite put_put.
Qed.

Lemma start_at w self n :
  objs w !! self = Some n ->
  start self w =
    Val tt (after_load self (with__is_running true n)
                       (put self (with__is_running true n) w)).
Proof.
  intros E. unfold start, bind. rewrite (_set_running_at _ _ n) by done.
  apply _load_saved_state_at, objs_put_eq.
Qed.

Lemma stop_at w self n :
  objs w !! self = Some n ->
  stop self w = Val tt (put self (with__is_running false n) w).
Proof. apply _set_running_at. Qed.

Lemma __init___at w self n :
  objs w !! self = Some n -> __init__ self w = Val tt w.
Proof. intros E. unfold __init__. by rewrite (getattr_at _ _ n). Qed.

Lemma __setstate___at w self n str_state :
  objs w !! self = Some n ->
  __setstate__ self str_state w =
    let n1 := with__saved_state (blob_of str_state) n in
    Val tt (if _is_running n then after_load self n1 (put self n1 w)
            else put self n1 w).
Proof.
  intros E. unfold __setstate__, bind.
  rewrite (__init___at _ _ n) by done.
  rewrite (setattr_at _ _ n) by done.
  unfold _get_running. erewrite getattr_at by apply objs_put_eq.
  cbn. destruct (_is_running n); [|done].
  apply _load_saved_state_at, objs_put_eq.
Qed.

Lemma fresh_unused w : objs w !! fresh (dom (objs w)) = None.
Proof. apply not_elem_of_dom, is_fresh. Qed.

Lemma instantiate_at w c :
  instantiate c w =
    Val (fresh (dom (objs w)))
        (put (fresh (dom (objs w))) (trait_defaults c) w).
Proof.
  unfold instantiate, bind, allocate. cbn.
  erewrite __init___at; [done|]. apply lookup_insert_eq.
Qed.

Lemma __deepcopy___at w self n memo :
  objs w !! self = Some n ->
  __deepcopy__ self memo w =
    let new := fresh (dom (objs w)) in
    Val new (put new (with__saved_state (copied_blob n)
                                        (trait_defaults (cls n))) w).
Proof.
  intros E. unfold __deepcopy__, bind.
  rewrite (getattr_at _ _ n) by done.
  rewrite instantiate_at.
  set (new := fresh (dom (objs w))).
  assert (Hne : new <> self).
  { intros Heq. pose proof (fresh_unused w) as F. fold new in F.
    rewrite Heq in F. congruence. }
  assert (E1 : objs (put new (trait_defaults (cls n)) w) !! self = Some n).
  { by rewrite objs_put_ne. }
  rewrite (getattr_at _ _ n) by done.
  unfold copied_blob.
  destruct (len_is_zero (_saved_state n)).
  - rewrite (getattr_at _ _ n) by done. cbn.
    erewrite setattr_at by apply objs_put_eq.
    unfold _get_running. erewrite getattr_at by apply objs_put_eq.
    cbn. by rewrite put_put.
  - cbn. erewrite setattr_at by apply objs_put_eq.
    unfold _get_running. erewrite getattr_at by apply objs_put_eq.
    cbn. by rewrite put_put.
Qed.

Lemma with_name_id n : with_name (name n) n = n.
Proof. by destruct n. Qed.

Lemma with_visible_id n : with_visible (visible n) n = n.
Proof. by destruct n. Qed.

Lemma tno_get_label_at w self n node :
  objs w !! self = Some n ->
  tno_get_label self node w =
    Val (label n) (put self (with_name (label n) n) w).
Proof.
  intros E. unfold tno_get_label, label, bind.
  rewrite (getattr_at _ _ n) by done.
  destruct (String.eqb (name n) "").
  - rewrite (getattr_at _ _ n) by done.
    rewrite (setattr_at _ _ n) by done.
    by erewrite getattr_at by apply objs_put_eq.
  - cbn. rewrite (getattr_at _ _ n) by done.
    by rewrite with_name_id, put_id.
Qed.

Lemma _visible_changed_at w self n value :
  objs w !! self = Some n ->
  _visible_changed self value w =
    Val tt (put self (with_name (name_after value n) n) w).
Proof.
  intros E. unfold _visible_changed, name_after, bind.
  rewrite (getattr_at _ _ n) by done.
  destruct (len_is_zero (name n)).
  - rewrite (tno_get_label_at _ _ n) by done. cbn.
    destruct value.
    + erewrite getattr_at by apply objs_put_eq.
      erewrite setattr_at by apply objs_put_eq.
      by rewrite put_put.
    + erewrite getattr_at by apply objs_put_eq. cbn.
      destruct (str_contains HIDDEN (label n)); cbn.
      * done.
      * erewrite setattr_at by apply objs_put_eq.
        by rewrite put_put.
  - cbn. destruct value.
    + rewrite (getattr_at _ _ n) by done.
      by rewrite (setattr_at _ _ n).
    + rewrite (getattr_at _ _ n) by done.
      destruct (str_contains HIDDEN (name n)); cbn.
      * by rewrite with_name_id, put_id.
      * by rewrite (setattr_at _ _ n).
Qed.

Lemma set_visible_at w self n v :
  objs w !! self = Some n ->
  set_visible self v w = Val tt (put self (visible_set v n) w).
Proof.
  intros E. unfold set_visible, visible_set, bind.
  rewrite (getattr_at _ _ n) by done.
  rewrite (setattr_at _ _ n) by done.
  destruct (Bool.eqb (visible n) v); [done|].
  erewrite _visible_changed_at by apply objs_put_eq.
  by rewrite put_put.
Qed.

Lemma _hideshow_at w self n :
  objs w !! self = Some n ->
  _hideshow self w = set_visible self (negb (visible n)) w.
Proof.
  intros E. unfold _hideshow, bind.
  rewrite (getattr_at _ _ n) by done. by destruct (visible n).
Qed.

(** *** Lifecycle *)

Lemma log_after_load w self n :
  log (after_load self n w) =
    log w ++ (if len_is_pos (_saved_state n)
              then [Applied self (_is_running n)
                            (cPickle_loads (_saved_state n))]
              else []).
Proof.
  unfold after_load. destruct (len_is_pos (_saved_state n)); cbn; [done|].
  by rewrite app_nil_r.
Qed.

Lemma same_log_applies_nothing w' w :
  log w' = log w ->
  exists l, log w' = log w ++ l /\ Forall while_running l.
Proof. intros ->. exists []. by rewrite app_nil_r. Qed.

(** C1: in [__setstate__], [__deepcopy__] and [start], a saved state reaches
    [__set_pure_state__] or [state_pickler.set_state] only while the [running]
    flag of the object is true. *)
Theorem state_applied_only_while_running self str_state memo :
  applies_only_while_running (__setstate__ self str_state) /\
  applies_only_while_running (__deepcopy__ self memo) /\
  applies_only_while_running (start self).
Proof.
  repeat split; intros w; destruct (objs w !! self) as [n|] eqn:E.
  - rewrite (__setstate___at _ _ n) by done. cbn.
    destruct (_is_running n) eqn:R; [|by apply same_log_applies_nothing].
    rewrite log_after_load. eexists; split; [done|].
    destruct (len_is_pos _); repeat constructor. exact R.
  - unfold __setstate__, __init__, bind. rewrite getattr_dangling by done.
    by apply same_log_applies_nothing.
  - rewrite (__deepcopy___at _ _ n) by done.
    by apply same_log_applies_nothing.
  - unfold __deepcopy__, bind. rewrite getattr_dangling by done.
    by apply same_log_applies_nothing.
  - rewrite (start_at _ _ n) by done. cbn.
    rewrite log_after_load. eexists; split; [done|].
    destruct (len_is_pos _); by repeat constructor.
  - unfold start, _set_running, bind. rewrite getattr_dangling by done.
    by apply same_log_applies_nothing.
Qed.

(** [_load_saved_state] itself has no such guard: called on a stopped object
    that holds a state, it applies it. *)
Lemma _load_saved_state_unguarded w self n :
  objs w !! self = Some n -> _is_running n = false -> _saved_state n <> "" ->
  log (world_of (_load_saved_state self w)) =
    log w ++ [Applied self false (cPickle_loads (_saved_state n))].
Proof.
  intros E R S. rewrite (_load_saved_state_at _ _ n) by done. cbn.
  rewrite log_after_load, R. by apply len_is_pos_spec in S as ->.
Qed.


(** C3: a new object is stopped and holds no saved state; [start] leaves
    [running] true and [stop] leaves it false. *)
Theorem lifecycle_flags :
  setters_keep_running ->
  (forall w c, exists new w' n,
      instantiate c w = Val new w' /\ objs w !! new = None /\
      objs w' !! new = Some n /\
      _is_running n = false /\ _saved_state n = "") /\
  (forall w self n, objs w !! self = Some n ->
      exists w' n', start self w = Val tt w' /\
                    objs w' !! self = Some n' /\ _is_running n' = true) /\
  (forall w self n, objs w !! self = Some n ->
      exists w' n', stop self w = Val tt w' /\
                    objs w' !! self = Some n' /\ _is_running n' = false).
Proof.
  intros K. repeat split.
  - intros w c. rewrite instantiate_at. do 3 eexists.
    split; [done|]. split; [apply fresh_unused|].
    split; [apply objs_put_eq|done].
  - intros w self n E. rewrite (start_at _ _ n) by done.
    unfold after_load. destruct (len_is_pos _).
    + do 2 eexists. split; [done|]. split; [apply lookup_insert_eq|].
      cbn. by rewrite K.
    + do 2 eexists. split; [done|]. split; [apply objs_put_eq|done].
  - intros w self n E. rewrite (stop_at _ _ n) by done.
    do 2 eexists. split; [done|]. split; [apply objs_put_eq|done].
Qed.


(** C5, as the code has it: an object of the store answers for [name],
    [visible], [running], [parent] and [_saved_state]; [children_ui_list] is
    the [children] list as it stands when the object has one, and an
    [AttributeError] when it has none, as an object of class [Base] itself.  A
    class that declares the list starts with an empty one. *)
Theorem node_traits_and_children_ui_list w self n :
  objs w !! self = Some n ->
  getattr self name w = Val (name n) w /\
  getattr self visible w = Val (visible n) w /\
  _get_running self w = Val (_is_running n) w /\
  getattr self parent w = Val (parent n) w /\
  getattr self _saved_state w = Val (_saved_state n) w /\
  (forall cs, children n = Some cs ->
     _get_children_ui_list self w = Val cs w) /\
  (children n = None ->
     _get_children_ui_list self w = Exc AttributeError w) /\
  children (trait_defaults "Base") = None /\
  (forall c, class_declares_children c = true ->
     children (trait_defaults c) = Some []).
Proof.
  intros E. unfold _get_children_ui_list, _get_running.
  rewrite !(getattr_at _ _ n) by done.
  repeat split; try done.
  - intros cs C. by apply (get_children_at _ _ n).
  - intros C. by apply (get_children_absent _ _ n).
  - intros c D. unfold trait_defaults. by rewrite D.
Qed.

(** *** One-shot application *)

Lemma no_pending_put w self n :
  no_pending_state w ->
  (_is_running n = true -> _saved_state n = "") ->
  no_pending_state (put self n w).
Proof.
  intros I Hn r m. destruct (decide (self = r)) as [<-|Hne].
  - rewrite objs_put_eq. intros [= <-]. exact Hn.
  - rewrite objs_put_ne by done. apply I.
Qed.

Lemma no_pending_after_load w self n :
  no_pending_state w -> no_pending_state (after_load self n w).
Proof.
  intros I. unfold after_load. destruct (len_is_pos _); [|done].
  by apply (no_pending_put w).
Qed.






(** *** The marker in the name *)

Lemma name_after_hide_fresh n :
  name n <> "" -> str_contains HIDDEN (name n) = false ->
  name_after false n = name n +:+ HIDDEN.
Proof.
  intros Hn Hc. unfold name_after.
  destruct (len_is_zero (name n)) eqn:Z;
    [by apply len_is_zero_spec in Z|].
  by rewrite Hc.
Qed.

Lemma name_after_hide_marked n :
  name n <> "" -> str_contains HIDDEN (name n) = true ->
  name_after false n = name n.
Proof.
  intros Hn Hc. unfold name_after.
  destruct (len_is_zero (name n)) eqn:Z;
    [by apply len_is_zero_spec in Z|].
  by rewrite Hc.
Qed.

Lemma append_nonempty s t : s <> "" -> s +:+ t <> "".
Proof. by destruct s. Qed.

(** C9, as the code has it: for a node whose name is not empty and does not
    hold [" [Hidden]"] yet, hiding appends the marker, hiding again leaves the
    name alone, showing gives the name back; without the second condition the
    marker is still never appended twice; [_hideshow] flips [visible]. *)
Theorem hidden_marker_round_trip w self n :
  objs w !! self = Some n ->
  name n <> "" ->
  (str_contains HIDDEN (name n) = false -> visible n = true ->
   exists w1 w2,
     set_visible self false w = Val tt w1 /\
     objs w1 !! self =
       Some (with_name (name n +:+ " [Hidden]") (with_visible false n)) /\
     set_visible self false w1 = Val tt w1 /\
     _visible_changed self false w1 = Val tt w1 /\
     set_visible self true w1 = Val tt w2 /\
     objs w2 !! self = Some n) /\
  (exists w1,
     _visible_changed self false w = Val tt w1 /\
     _visible_changed self false w1 = Val tt w1) /\
  (exists w1 n1,
     _hideshow self w = Val tt w1 /\ objs w1 !! self = Some n1 /\
     visible n1 = negb (visible n)).
Proof.
  intros E Hn. change " [Hidden]" with HIDDEN. repeat split.
  - intros Hc V.
    set (n1 := with_name (name n +:+ HIDDEN) (with_visible false n)).
    assert (E1 : set_visible self false w = Val tt (put self n1 w)).
    { rewrite (set_visible_at _ _ n) by done. unfold visible_set.
      rewrite V. cbn [Bool.eqb]. by rewrite name_after_hide_fresh. }
    exists (put self n1 w). eexists. split; [done|].
    split; [apply objs_put_eq|].
    split.
    { erewrite set_visible_at by apply objs_put_eq. unfold visible_set.
      cbn. by rewrite put_put. }
    split.
    { erewrite _visible_changed_at by apply objs_put_eq.
      rewrite put_put. f_equal. f_equal.
      rewrite name_after_hide_marked.
      - done.
      - by apply append_nonempty.
      - apply str_contains_app_r. }
    split.
    { erewrite set_visible_at by apply objs_put_eq. done. }
    rewrite put_put, objs_put_eq. f_equal.
    unfold visible_set, name_after. subst n1.
    cbn [visible name with_name with_visible Bool.eqb].
    destruct (len_is_zero (name n +:+ HIDDEN)) eqn:Z.
    { apply len_is_zero_spec in Z. by apply append_nonempty in Z. }
    rewrite (replace_hidden_app (name n)) by done.
    destruct n; cbn in *. by subst.
  - destruct (str_contains HIDDEN (name n)) eqn:Hc.
    + exists w. assert (H1 : _visible_changed self false w = Val tt w).
      { rewrite (_visible_changed_at _ _ n) by done.
        by rewrite name_after_hide_marked, with_name_id, put_id. }
      done.
    + eexists. split; [by apply _visible_changed_at|].
      erewrite _visible_changed_at by apply objs_put_eq.
      rewrite put_put. f_equal. f_equal.
      rewrite (name_after_hide_fresh n) by done.
      rewrite name_after_hide_marked; cbn.
      * done.
      * by apply append_nonempty.
      * apply str_contains_app_r.
  - rewrite (_hideshow_at _ _ n), (set_visible_at _ _ n) by done.
    do 2 eexists. split; [done|]. split; [apply objs_put_eq|].
    unfold visible_set. destruct (Bool.eqb _ _); done.
Qed.

(** *** Removal *)

(** C10: without a parent [remove] returns at once and changes nothing; with
    a parent it is the call [parent.remove_child(self)], which for a parent
    that does not override [remove_child] raises [NotImplementedError]. *)
Theorem remove_delegates_to_parent w self n :
  objs w !! self = Some n ->
  (parent n = None -> remove self w = Val tt w) /\
  (forall p, parent n = Some p -> is_Some (objs w !! p) ->
     remove self w = call_remove_child p self w) /\
  (forall p pn, parent n = Some p -> objs w !! p = Some pn ->
     remove_child_override (cls pn) = None ->
     remove self w = Exc NotImplementedError w) /\
  (forall p, parent n = Some p -> objs w !! p = None ->
     remove self w = Val tt w).
Proof.
  intros E. unfold remove, get_parent, bind.
  rewrite (getattr_at _ _ n) by done. repeat split.
  - by intros ->.
  - intros p -> Hp. by rewrite decide_True.
  - intros p pn -> Ep Ov. rewrite decide_True by eauto.
    unfold call_remove_child, bind.
    rewrite (getattr_at _ _ pn) by done. by rewrite Ov.
  - intros p -> Ep. rewrite decide_False; [done|].
    rewrite Ep. by intros [? ?].
Qed.

(** *** Figures *)

Lemma setattr_scene_returns o upd w w' :
  setattr_scene o upd w = Val tt w' ->
  exists s n tv,
    o = Some s /\ objs w !! s = Some n /\ scene n = Some tv /\
    w' = put s (with_scene (Some (upd tv)) n) w.
Proof.
  unfold setattr_scene, bind. destruct o as [s|]; [|done]. cbn.
  destruct (objs w !! s) as [n|] eqn:E.
  - rewrite (getattr_at _ _ n) by done.
    destruct (scene n) as [tv|] eqn:S; [|done].
    rewrite (setattr_at _ _ n) by done. intros [= <-]. by exists s, n, tv.
  - by rewrite getattr_dangling.
Qed.

Lemma setattr_scene_at s upd w n tv :
  objs w !! s = Some n -> scene n = Some tv ->
  setattr_scene (Some s) upd w =
    Val tt (put s (with_scene (Some (upd tv)) n) w).
Proof.
  intros E S. unfold setattr_scene, bind. cbn.
  rewrite (getattr_at _ _ n), S by done. by rewrite (setattr_at _ _ n).
Qed.

Lemma figure_returns nm bg fg w r w' :
  figure nm bg fg w = Val r w' ->
  exists s n tv,
    r = Some s /\ current_scene (engine w') = Some s /\
    objs w' !! s = Some n /\ scene n = Some tv.
Proof.
  unfold figure. unfold bind at 1.
  destruct (get_engine w) as [[] w0|]; [|done].
  unfold bind at 1.
  match goal with
  | |- context [match ?m w0 with _ => _ end] =>
      destruct (m w0) as [[] w1|]; [|done]
  end.
  unfold bind at 1. destruct (view 40 50 w1) as [[] w2|]; [|done].
  unfold bind at 1. unfold engine_current_scene at 1.
  unfold bind at 1.
  destruct (setattr_scene _ _ w2) as [[] w3|] eqn:S1; [|done].
  unfold bind at 1.
  destruct (setattr_scene _ _ w3) as [[] w4|] eqn:S2; [|done].
  intros [= <- <-].
  apply setattr_scene_returns in S1 as (s & n & tv & Hs & E & Sc & ->).
  apply setattr_scene_returns in S2 as (s' & n' & tv' & Hs' & E' & Sc' & ->).
  rewrite Hs in Hs'. injection Hs' as <-.
  do 3 eexists. split; [done|]. split; [done|].
  split; [apply objs_put_eq|done].
Qed.

(** C6: [gcf] returns the current scene of the engine if there is one.  If
    there is none it is [figure()]: the engine is asked for a new scene, and
    the scene that is current after that comes back, with the default
    colours.  Whenever [gcf] returns, the value is the current scene, never
    [None]. *)
Theorem gcf_returns_a_scene w :
  (forall w0 s, get_engine w = Val tt w0 ->
     current_scene (engine w0) = Some s -> gcf w = Val (Some s) w0) /\
  (forall w0, get_engine w = Val tt w0 ->
     current_scene (engine w0) = None ->
     gcf w = figure NameNone None None w0) /\
  (forall w0 w0' w1 w2 c n tv,
     get_engine w = Val tt w0 -> current_scene (engine w0) = None ->
     get_engine w0 = Val tt w0' ->
     engine_new_scene w0' = Val tt w1 ->
     view 40 50 w1 = Val tt w2 ->
     current_scene (engine w2) = Some c ->
     objs w2 !! c = Some n -> scene n = Some tv ->
     gcf w = Val (Some c) (put c (coloured None None tv n) w2)) /\
  (forall r w', gcf w = Val r w' ->
     r <> None /\ r = current_scene (engine w')).
Proof.
  unfold gcf, bind, engine_current_scene. split; [|split; [|split]].
  - intros w0 s -> C. by rewrite C.
  - intros w0 -> C. by rewrite C.
  - intros w0 w0' w1 w2 c n tv -> C G N V C2 E S. rewrite C.
    unfold figure, bind, engine_current_scene. rewrite G, N, V, C2.
    erewrite setattr_scene_at by done.
    erewrite setattr_scene_at; [|apply objs_put_eq|done].
    by rewrite put_put.
  - intros r w'. destruct (get_engine w) as [[] w0|]; [|done].
    destruct (current_scene (engine w0)) eqn:C.
    + intros [= <- <-]. by rewrite C.
    + intros F.
      by apply figure_returns in F as (s & n & tv & -> & -> & _).
Qed.


End Properties.

(** ** The statements at work in the small session *)


Lemma demo_setters_keep_running :
  setters_keep_running (State := string) (Color := demo_Color).
Proof. intros n st. reflexivity. Qed.

(** A new ["Glyph"] is stopped and empty-handed; [start] and [stop] set the
    flag of ["glyph"]. *)
Lemma lifecycle_flags_witness :
  (exists new (w' : World string demo_Color) n,
      instantiate "Glyph" demo_world = Val new w' /\
      objs demo_world !! new = None /\ objs w' !! new = Some n /\
      _is_running n = false /\ _saved_state n = "") /\
  (exists (w' : World string demo_Color) n',
      start 0 demo_world = Val tt w' /\
      objs w' !! 0 = Some n' /\ _is_running n' = true) /\
  (exists (w' : World string demo_Color) n',
      stop 0 demo_world = Val tt w' /\
      objs w' !! 0 = Some n' /\ _is_running n' = false).
Proof.
  destruct (lifecycle_flags demo_setters_keep_running) as (New & Start & Stop).
  split; [exact (New demo_world "Glyph")|].
  split; [refine (Start demo_world 0 demo_node _) |
          refine (Stop demo_world 0 demo_node _)]; reflexivity.
Defined.


(** The scene at 0 answers for its traits; its [children_ui_list] is [[1]]. *)
Lemma node_traits_and_children_ui_list_witness :
  getattr 0 name family_world = Val "TVTK Scene 1" family_world /\
  getattr 0 visible family_world = Val true family_world /\
  _get_running 0 family_world = Val false family_world /\
  getattr 0 parent family_world = Val None family_world /\
  getattr 0 _saved_state family_world = Val "" family_world /\
  _get_children_ui_list 0 family_world = Val [1] family_world.
Proof.
  destruct (node_traits_and_children_ui_list family_world 0 demo_scene)
    as (N & V & R & P & S & C & _); [reflexivity|].
  exact (conj N (conj V (conj R (conj P (conj S (C [1] eq_refl)))))).
Defined.

(** C5 as stated fails: an object made by [Base()] has no [children], and
    reading its [children_ui_list] raises [AttributeError]. *)
Lemma bare_Base_has_no_children :
  (exists new (w' : World string demo_Color),
     instantiate "Base" (mkWorld ∅ (mkEngine [] None) []) = Val new w' /\
     getattr new children w' = Val None w' /\
     _get_children_ui_list new w' = Exc AttributeError w') /\
  ~ every_node_has_children (State := string) (Color := demo_Color).
Proof.
  split.
  - do 2 eexists. rewrite instantiate_at. split; [reflexivity|].
    split.
    + by erewrite getattr_at by apply objs_put_eq.
    + by eapply get_children_absent; [apply objs_put_eq|].
  - intros All.
    destruct (All (put 0 (trait_defaults "Base")
                       (mkWorld ∅ (mkEngine [] None) []))
                  0 (trait_defaults "Base") (objs_put_eq _ _ _))
      as (cs & C & _).
    discriminate.
Qed.

(** No scene is current in the small session: [gcf] returns the scene that
    the engine makes, at a reference that was not in use. *)
Lemma gcf_returns_a_scene_witness :
  objs demo_world !! 1 = None /\
  gcf demo_world
    = Val (Some 1)
          (put 1 (coloured None None demo_tvtk
                    (with_scene (Some demo_tvtk) (trait_defaults "Scene")))
               (world_of (engine_new_scene demo_world))).
Proof.
  split; [reflexivity|].
  refine (proj1 (proj2 (proj2 (gcf_returns_a_scene demo_world)))
                demo_world demo_world
                (world_of (engine_new_scene demo_world))
                (world_of (engine_new_scene demo_world))
                1 (with_scene (Some demo_tvtk) (trait_defaults "Scene"))
                demo_tvtk _ _ _ _ _ _ _ _); reflexivity.
Defined.




(** ["glyph"] becomes ["glyph [Hidden]"], stays so, and becomes ["glyph"]
    again. *)
Lemma hidden_marker_round_trip_witness :
  exists w1 w2 : World string demo_Color,
    set_visible 0 false demo_world = Val tt w1 /\
    objs w1 !! 0 =
      Some (with_name "glyph [Hidden]" (with_visible false demo_node)) /\
    set_visible 0 false w1 = Val tt w1 /\
    _visible_changed 0 false w1 = Val tt w1 /\
    set_visible 0 true w1 = Val tt w2 /\
    objs w2 !! 0 = Some demo_node.
Proof.
  refine (proj1 (hidden_marker_round_trip demo_world 0 demo_node _ _) _ _);
    [reflexivity | discriminate | reflexivity | reflexivity].
Defined.

(** C9 as stated fails: the visible node named ["x [Hidden]"] keeps its name
    when hidden and is named ["x"] when shown again. *)
Lemma marked_name_not_restored :
  name marked_node <> "" /\ visible marked_node = true /\
  (exists w1 w2 : World string demo_Color,
     set_visible 0 false marked_world = Val tt w1 /\
     name <$> (objs w1 !! 0) = Some "x [Hidden]" /\
     set_visible 0 true w1 = Val tt w2 /\
     name <$> (objs w2 !! 0) = Some "x") /\
  ~ hide_show_restores_name (State := string) (Color := demo_Color).
Proof.
  assert (E : objs marked_world !! 0 = Some marked_node) by reflexivity.
  assert (H1 : set_visible 0 false marked_world
               = Val tt (put 0 (visible_set false marked_node) marked_world))
    by by apply set_visible_at.
  assert (H2 : set_visible 0 true
                 (put 0 (visible_set false marked_node) marked_world)
               = Val tt (put 0 (visible_set true
                                   (visible_set false marked_node))
                             marked_world)).
  { erewrite set_visible_at by apply objs_put_eq. by rewrite put_put. }
  split; [discriminate|]. split; [reflexivity|]. split.
  - do 2 eexists. split; [exact H1|]. rewrite objs_put_eq.
    split; [reflexivity|]. split; [exact H2|].
    rewrite objs_put_eq. reflexivity.
  - intros R. destruct (R marked_world 0 marked_node E) as (w1 & w2 & A & B & C);
      [discriminate | reflexivity |].
    rewrite H1 in A. injection A as <-.
    rewrite H2 in B. injection B as <-.
    rewrite objs_put_eq in C. vm_compute in C. discriminate.
Qed.

(** The child at 1 is removed through its parent, the scene at 0; the scene
    has no parent and its [remove] does nothing. *)
Lemma remove_delegates_to_parent_witness :
  remove 1 family_world = call_remove_child 0 1 family_world /\
  remove 0 family_world = Val tt family_world.
Proof.
  split.
  - refine (proj1 (proj2 (remove_delegates_to_parent
                            family_world 1 demo_child _)) 0 _ _);
      [reflexivity | reflexivity | by exists demo_scene].
  - refine (proj1 (remove_delegates_to_parent
                     family_world 0 demo_scene _) _); reflexivity.
Defined.

(** *** Runs of the figure helpers *)

(** Without a current scene [gcf] makes one, at the first free reference. *)
Example gcf_makes_a_scene :
  exists w' : World string demo_Color,
    gcf demo_world = Val (Some 1) w' /\
    current_scene (engine w') = Some 1 /\
    (background <$> (objs w' !! 1 ≫= scene)) = Some (5, 5, 5).
Proof. eexists. vm_compute. done. Qed.

(** With a current scene [gcf] returns it and [clf] empties it. *)
Example clf_empties_the_scene :
  gcf family_world = Val (Some 0) family_world /\
  exists w' : World string demo_Color,
    clf family_world = Val tt w' /\
    children <$> (objs w' !! 0) = Some (Some []) /\
    (disable_render <$> (objs w' !! 0 ≫= scene)) = Some false.
Proof. split; [reflexivity|]. eexists. vm_compute. done. Qed.

(** A current scene without a render window: [clf] meets the
    [AttributeError] at the first assignment and returns all the same, the
    children still in place. *)
Example clf_without_render_window :
  let w := mkWorld {[ 0 := with_children [1] (trait_defaults "Scene") ]}
                   (mkEngine [0] (Some 0)) [] : World string demo_Color in
  clf_body w = Exc AttributeError w /\ clf w = Val tt w.
Proof. split; reflexivity. Qed.

(** A current scene with a render window but without a [children] list: the
    [AttributeError] comes after rendering was switched off, and [clf] returns
    with rendering still off. *)
Example clf_without_children :
  let n := with_scene (Some demo_tvtk) (trait_defaults "Glyph") in
  let w := mkWorld {[ 0 := n ]} (mkEngine [0] (Some 0)) []
           : World string demo_Color in
  exists w',
    clf w = Val tt w' /\
    (disable_render <$> (objs w' !! 0 ≫= scene)) = Some true.
Proof. eexists. vm_compute. done. Qed.

(** [self.running = True] on its own, outside [start], loads nothing:
    [start] is the method that pairs the assignment with
    [_load_saved_state]. *)
Example running_assigned_outside_start :
  exists w' : World string demo_Color,
    _set_running 0 true pending_world = Val tt w' /\
    _is_running <$> (objs w' !! 0) = Some true /\
    _saved_state <$> (objs w' !! 0) = Some "Sabc" /\
    log w' = [].
Proof. eexists. vm_compute. done. Qed.

(** ** Further properties of the two files *)

(** *** [__get_pure_state__] *)

Lemma foldl_delete_lookup {V : Type} (ks : list string) (d : gmap string V) k :
  foldl (fun d attr => delete attr d) d ks !! k =
    if decide (k ∈ ks) then None else d !! k.
Proof.
  revert d. induction ks as [|a ks IH]; intros d; cbn.
  - rewrite decide_False; [done|]. apply not_elem_of_nil.
  - rewrite IH. destruct (decide (k ∈ ks)) as [In|Nin].
    + rewrite decide_True; [done|]. apply elem_of_cons. by right.
    + destruct (decide (a = k)) as [->|Hne].
      * rewrite lookup_delete_eq. rewrite decide_True; [done|].
        apply elem_of_cons. by left.
      * rewrite lookup_delete_ne by done.
        rewrite decide_False; [done|].
        intros [->|In]%elem_of_cons; done.
Qed.

(** The pure state holds none of the ten dropped attributes and every other
    entry of the instance dictionary, unchanged; dropping is idempotent. *)
Theorem pure_state_drops_exactly {V : Type} (d : gmap string V) :
  (forall k, k ∈ pure_state_dropped -> __get_pure_state__ d !! k = None) /\
  (forall k, k ∉ pure_state_dropped -> __get_pure_state__ d !! k = d !! k) /\
  __get_pure_state__ (__get_pure_state__ d) = __get_pure_state__ d.
Proof.
  unfold __get_pure_state__. split; [|split].
  - intros k In. rewrite foldl_delete_lookup. by rewrite decide_True.
  - intros k Nin. rewrite foldl_delete_lookup. by rewrite decide_False.
  - apply map_eq. intros k. rewrite !foldl_delete_lookup.
    by destruct (decide (k ∈ pure_state_dropped)).
Qed.

(** *** [del l[i]] *)

Lemma py_del_in_range {A : Type} (l : list A) (i : nat) :
  i < length l -> py_del l (Z.of_nat i) = Some (delete i l).
Proof.
  intros Hi. unfold py_del.
  destruct (Z.ltb_spec (Z.of_nat i) 0); [lia|].
  destruct (Z.leb_spec 0 (Z.of_nat i)); [|lia].
  destruct (Z.ltb_spec (Z.of_nat i) (Z.of_nat (length l))); [|lia].
  cbn. by rewrite Nat2Z.id.
Qed.

Lemma py_del_from_end {A : Type} (l : list A) (k : nat) :
  0 < k <= length l ->
  py_del l (- Z.of_nat k) = Some (delete (length l - k) l).
Proof.
  intros Hk. unfold py_del.
  destruct (Z.ltb_spec (- Z.of_nat k) 0); [|lia].
  destruct (Z.leb_spec 0 (- Z.of_nat k + Z.of_nat (length l))); [|lia].
  destruct (Z.ltb_spec (- Z.of_nat k + Z.of_nat (length l))
                       (Z.of_nat (length l))); [|lia].
  cbn. f_equal. f_equal. lia.
Qed.

Lemma py_del_out_of_range {A : Type} (l : list A) (i : Z) :
  (i < - Z.of_nat (length l) \/ Z.of_nat (length l) <= i)%Z ->
  py_del l i = None.
Proof.
  intros Hi. unfold py_del.
  destruct (Z.ltb_spec i 0).
  - destruct (Z.leb_spec 0 (i + Z.of_nat (length l))); [|done].
    destruct (Z.ltb_spec (i + Z.of_nat (length l)) (Z.of_nat (length l)));
      [lia|done].
  - destruct (Z.leb_spec 0 i); [|done].
    destruct (Z.ltb_spec i (Z.of_nat (length l))); [lia|done].
Qed.

Lemma py_del_length {A : Type} (l l' : list A) (i : Z) :
  py_del l i = Some l' -> S (length l') = length l.
Proof.
  unfold py_del.
  set (j := if (i <? 0)%Z then (i + Z.of_nat (length l))%Z else i).
  destruct (Z.leb_spec 0 j); [|done].
  destruct (Z.ltb_spec j (Z.of_nat (length l))); [|done].
  cbn. intros [= <-]. rewrite length_delete; [lia|].
  apply lookup_lt_is_Some. lia.
Qed.

Section Further.

Context {State Color : Type}.
Context `{!Pickling State Color} `{!Subclasses State Color}.
Context `{!Session State Color} `{!Rendering State Color}.
Context `{!TreeView State Color}.

Implicit Types (w : World State Color) (n : Node Color) (self : ref).

(** *** [tno_delete_child] *)

Lemma get_children_ui_list_of_Base w self n :
  objs w !! self = Some n -> children_ui_list_override (cls n) = None ->
  get_children_ui_list self w = _get_children_ui_list self w.
Proof.
  intros E O. unfold get_children_ui_list, bind.
  by rewrite (getattr_at _ _ n), O.
Qed.

Lemma tno_delete_child_at w self n cs ui node index :
  objs w !! self = Some n -> children n = Some cs ->
  get_children_ui_list self w = Val ui w ->
  tno_delete_child self node index w =
    match py_del cs (if Nat.ltb (length cs) (length ui)
                     then (index - 1)%Z else index) with
    | Some cs' => Val tt (put self (with_children cs' n) w)
    | None => Exc IndexError w
    end.
Proof.
  intros E C U. unfold tno_delete_child, bind. rewrite U.
  rewrite (get_children_at _ _ n cs) by done.
  destruct (Nat.ltb (length cs) (length ui)).
  - rewrite (get_children_at _ _ n cs) by done.
    destruct (py_del cs (index - 1)); [|done]. by rewrite (setattr_at _ _ n).
  - rewrite (get_children_at _ _ n cs) by done.
    destruct (py_del cs index); [|done]. by rewrite (setattr_at _ _ n).
Qed.

(** [tno_delete_child] deletes one child and changes nothing else.  When the
    list shown in the tree is no longer than [children], as with the getter of
    [Base], the child deleted is [children[index]]; when a subclass shows a
    longer list, it is [children[index - 1]], so that the entry [i + 1] of the
    tree stands for the child [i], and the entry 0 for the last child. *)
Theorem tno_delete_child_deletes_at_index w self n cs ui node :
  objs w !! self = Some n -> children n = Some cs ->
  get_children_ui_list self w = Val ui w ->
  (length ui <= length cs ->
   forall i : nat, i < length cs ->
     tno_delete_child self node (Z.of_nat i) w =
       Val tt (put self (with_children (delete i cs) n) w)) /\
  (length cs < length ui ->
   forall i : nat, i < length cs ->
     tno_delete_child self node (Z.of_nat (S i)) w =
       Val tt (put self (with_children (delete i cs) n) w)) /\
  (length cs < length ui -> 0 < length cs ->
     tno_delete_child self node 0 w =
       Val tt (put self (with_children (delete (length cs - 1) cs) n) w)) /\
  (children_ui_list_override (cls n) = None -> ui = cs) /\
  (forall index w',
     tno_delete_child self node index w = Val tt w' ->
     exists cs', objs w' !! self = Some (with_children cs' n) /\
                 S (length cs') = length cs /\
                 (forall r, r <> self -> objs w' !! r = objs w !! r) /\
                 engine w' = engine w /\ log w' = log w).
Proof.
  intros E C U. split; [|split; [|split; [|split]]].
  - intros Le i Hi. rewrite (tno_delete_child_at _ _ n cs ui) by done.
    destruct (Nat.ltb_spec (length cs) (length ui)); [lia|].
    by rewrite py_del_in_range.
  - intros Lt i Hi. rewrite (tno_delete_child_at _ _ n cs ui) by done.
    destruct (Nat.ltb_spec (length cs) (length ui)); [|lia].
    replace (Z.of_nat (S i) - 1)%Z with (Z.of_nat i) by lia.
    by rewrite py_del_in_range.
  - intros Lt Pos. rewrite (tno_delete_child_at _ _ n cs ui) by done.
    destruct (Nat.ltb_spec (length cs) (length ui)); [|lia].
    change (0 - 1)%Z with (- Z.of_nat 1)%Z.
    rewrite py_del_from_end by lia. done.
  - intros O. rewrite (get_children_ui_list_of_Base _ _ n) in U by done.
    unfold _get_children_ui_list in U.
    rewrite (get_children_at _ _ n cs) in U by done. congruence.
  - intros index w'. rewrite (tno_delete_child_at _ _ n cs ui) by done.
    destruct (py_del cs _) as [cs'|] eqn:D; [|done].
    intros [= <-]. exists cs'. split; [apply objs_put_eq|].
    split; [by eapply py_del_length|].
    split; [|done]. intros r Hr. by rewrite objs_put_ne.
Qed.

(** The index that reaches [del], [index] or [index - 1] as above, raises
    [IndexError] when it is out of range, and an object without a [children]
    list raises [AttributeError], from the getter of [Base] or else at
    [len(self.children)]; either way the store is left as it was. *)
Theorem tno_delete_child_errors w self n node index :
  objs w !! self = Some n ->
  (forall ui cs,
     get_children_ui_list self w = Val ui w ->
     children n = Some cs -> length ui <= length cs ->
     (index < - Z.of_nat (length cs) \/ Z.of_nat (length cs) <= index)%Z ->
     tno_delete_child self node index w = Exc IndexError w) /\
  (forall ui cs,
     get_children_ui_list self w = Val ui w ->
     children n = Some cs -> length cs < length ui ->
     (index - 1 < - Z.of_nat (length cs)
      \/ Z.of_nat (length cs) <= index - 1)%Z ->
     tno_delete_child self node index w = Exc IndexError w) /\
  (forall ui,
     get_children_ui_list self w = Val ui w -> children n = Some [] ->
     tno_delete_child self node index w = Exc IndexError w) /\
  (forall ui,
     get_children_ui_list self w = Val ui w -> children n = None ->
     tno_delete_child self node index w = Exc AttributeError w) /\
  (children_ui_list_override (cls n) = None -> children n = None ->
     tno_delete_child self node index w = Exc AttributeError w).
Proof.
  intros E. split; [|split; [|split; [|split]]].
  - intros ui cs U C Le Hi.
    rewrite (tno_delete_child_at _ _ n cs ui) by done.
    destruct (Nat.ltb_spec (length cs) (length ui)); [lia|].
    by rewrite py_del_out_of_range.
  - intros ui cs U C Lt Hi.
    rewrite (tno_delete_child_at _ _ n cs ui) by done.
    destruct (Nat.ltb_spec (length cs) (length ui)); [|lia].
    by rewrite py_del_out_of_range.
  - intros ui U C. rewrite (tno_delete_child_at _ _ n [] ui) by done.
    destruct (Nat.ltb (length []) (length ui));
      by rewrite py_del_out_of_range by (cbn; lia).
  - intros ui U C. unfold tno_delete_child, bind. rewrite U.
    by rewrite (get_children_absent _ _ n).
  - intros O C. unfold tno_delete_child, bind.
    rewrite (get_children_ui_list_of_Base _ _ n) by done.
    unfold _get_children_ui_list.
    by rewrite (get_children_absent _ _ n).
Qed.

(** *** [tno_get_label] *)

(** The label is the name, or the class name when the name is empty, in
    which case it becomes the name; a name that is not empty is never
    touched, and asking again gives the same label and changes nothing. *)
Theorem tno_get_label_names_once w self n node node' :
  objs w !! self = Some n ->
  exists w1,
    tno_get_label self node w = Val (label n) w1 /\
    (name n <> "" -> label n = name n /\ w1 = w) /\
    (name n = "" -> label n = cls n /\
                    objs w1 !! self = Some (with_name (cls n) n)) /\
    tno_get_label self node' w1 = Val (label n) w1.
Proof.
  intros E. rewrite (tno_get_label_at _ _ n) by done.
  eexists. split; [done|].
  assert (L2 : label (with_name (label n) n) = label n).
  { unfold label. cbn.
    destruct (String.eqb_spec (name n) "") as [Hn|Hn]; cbn.
    - destruct (String.eqb_spec (cls n) ""); congruence.
    - by destruct (String.eqb_spec (name n) ""). }
  split; [|split].
  - intros Hn. unfold label.
    destruct (String.eqb_spec (name n) ""); [done|].
    split; [done|]. by rewrite with_name_id, put_id.
  - intros Hn. unfold label. rewrite Hn. cbn.
    split; [done|]. apply objs_put_eq.
  - erewrite tno_get_label_at by apply objs_put_eq.
    by rewrite L2, put_put.
Qed.

(** *** More of the lifecycle *)

(** On a running object [__setstate__] applies the state at once: one
    application, with [running] true, and [_saved_state] is empty
    afterwards. *)
Theorem setstate_on_running_applies_at_once w self n str_state :
  objs w !! self = Some n ->
  _is_running n = true ->
  cPickle_dumps (update_state (loads_state str_state)) <> "" ->
  let blob := cPickle_dumps (update_state (loads_state str_state)) in
  exists w',
    __setstate__ self str_state w = Val tt w' /\
    log w' = log w ++ [Applied self true (cPickle_loads blob)] /\
    objs w' !! self =
      Some (with__saved_state ""
              (state_applied (with__saved_state blob n)
                             (cPickle_loads blob))).
Proof.
  intros E R B blob.
  rewrite (__setstate___at _ _ n), R by done.
  unfold blob_of. fold blob. cbn.
  assert (P : len_is_pos (_saved_state (with__saved_state blob n)) = true)
    by by apply len_is_pos_spec.
  eexists. split; [done|].
  rewrite log_after_load, P. cbn. rewrite R. split; [done|].
  unfold after_load. rewrite P. apply lookup_insert_eq.
Qed.

(** Two [__setstate__] calls on a stopped object: the second blob replaces
    the first, and nothing of the first call is left. *)
Theorem setstate_twice_keeps_the_last w self n s1 s2 :
  objs w !! self = Some n ->
  _is_running n = false ->
  bind (__setstate__ self s1) (fun _ => __setstate__ self s2) w =
    __setstate__ self s2 w.
Proof.
  intros E R. unfold bind.
  rewrite (__setstate___at _ _ n), R by done. cbn.
  erewrite __setstate___at by apply objs_put_eq. cbn. rewrite R.
  rewrite (__setstate___at _ _ n), R by done. cbn.
  by rewrite put_put.
Qed.

(** [copy.deepcopy(x)] followed by [start] on the copy applies to the copy
    the unpickled blob that it carries, and nothing to [x]; when [x] held no
    saved state and unpickling undoes pickling, that is the state of [x]. *)
Theorem started_copy_gets_the_state w x n memo :
  objs w !! x = Some n ->
  copied_blob n <> "" ->
  exists new w1 w2,
    __deepcopy__ x memo w = Val new w1 /\
    start new w1 = Val tt w2 /\
    log w2 = log w ++ [Applied new true (cPickle_loads (copied_blob n))] /\
    objs w2 !! x = Some n /\
    (_saved_state n = "" ->
     cPickle_loads (cPickle_dumps (get_state n)) = get_state n ->
     log w2 = log w ++ [Applied new true (get_state n)]).
Proof.
  intros E B. rewrite (__deepcopy___at _ _ n) by done. cbn.
  set (new := fresh (dom (objs w))).
  assert (Hne : new <> x).
  { intros Heq. pose proof (fresh_unused w) as F. fold new in F.
    rewrite Heq in F. congruence. }
  set (c := with__saved_state (copied_blob n) (trait_defaults (cls n))).
  assert (P : len_is_pos (_saved_state (with__is_running true c)) = true)
    by by apply len_is_pos_spec.
  do 3 eexists. split; [done|].
  erewrite start_at by apply objs_put_eq. split; [done|].
  rewrite log_after_load, P.
  split; [done|]. split.
  - unfold after_load. rewrite P. cbn.
    rewrite lookup_insert_ne by done. rewrite lookup_insert_ne by done.
    by rewrite lookup_insert_ne.
  - intros S RT. cbn. unfold copied_blob. rewrite S. cbn. by rewrite RT.
Qed.

(** A copy of a copy that was never started sits at a third reference and
    carries the same blob. *)
Theorem copy_of_copy_carries_the_same_blob w x n memo memo' :
  objs w !! x = Some n ->
  copied_blob n <> "" ->
  exists c1 w1 c2 w2 n1 n2,
    __deepcopy__ x memo w = Val c1 w1 /\
    __deepcopy__ c1 memo' w1 = Val c2 w2 /\
    c1 <> x /\ c2 <> x /\ c2 <> c1 /\
    objs w2 !! c1 = Some n1 /\ objs w2 !! c2 = Some n2 /\
    _saved_state n1 = copied_blob n /\ _saved_state n2 = copied_blob n /\
    objs w2 !! x = Some n.
Proof.
  intros E B. rewrite (__deepcopy___at _ _ n) by done. cbn.
  set (c1 := fresh (dom (objs w))).
  set (n1 := with__saved_state (copied_blob n) (trait_defaults (cls n))).
  set (w1 := put c1 n1 w).
  assert (H1 : c1 <> x).
  { intros Heq. pose proof (fresh_unused w) as F. fold c1 in F.
    rewrite Heq in F. congruence. }
  assert (E1 : objs w1 !! c1 = Some n1) by apply objs_put_eq.
  assert (Ex : objs w1 !! x = Some n).
  { unfold w1. by rewrite objs_put_ne. }
  set (c2 := fresh (dom (objs w1))).
  assert (F2 := fresh_unused w1). fold c2 in F2.
  assert (H2 : c2 <> x) by (intros Heq; rewrite Heq in F2; congruence).
  assert (H3 : c2 <> c1) by (intros Heq; rewrite Heq in F2; congruence).
  exists c1, w1, c2. do 3 eexists. split; [done|].
  rewrite (__deepcopy___at _ _ n1) by done. cbn. fold c2.
  split; [done|]. do 3 (split; [done|]).
  split; [by rewrite objs_put_ne|]. split; [apply objs_put_eq|].
  split; [done|]. split.
  - cbn. unfold copied_blob at 1. cbn.
    destruct (copied_blob n); [done|reflexivity].
  - by rewrite objs_put_ne.
Qed.

(** *** More of the marker *)

(** A node without a name is named after its class before the marker is
    dealt with: hidden, it is called ["<class> [Hidden]"]. *)
Theorem hiding_an_unnamed_node_names_it w self n :
  objs w !! self = Some n ->
  name n = "" -> visible n = true ->
  cls n <> "" -> str_contains HIDDEN (cls n) = false ->
  exists w1 w2,
    set_visible self false w = Val tt w1 /\
    objs w1 !! self =
      Some (with_name (cls n +:+ " [Hidden]") (with_visible false n)) /\
    set_visible self true w1 = Val tt w2 /\
    objs w2 !! self = Some (with_name (cls n) n).
Proof.
  intros E Hn V Hc Hm. change " [Hidden]" with HIDDEN.
  set (n1 := with_name (cls n +:+ HIDDEN) (with_visible false n)).
  assert (E1 : set_visible self false w = Val tt (put self n1 w)).
  { rewrite (set_visible_at _ _ n) by done. unfold visible_set.
    rewrite V. cbn [Bool.eqb]. unfold name_after, label.
    cbn [name with_visible]. rewrite Hn. cbn. by rewrite Hm. }
  do 2 eexists. split; [exact E1|]. split; [apply objs_put_eq|].
  erewrite set_visible_at by apply objs_put_eq. split; [done|].
  rewrite put_put, objs_put_eq. f_equal.
  unfold visible_set, name_after. subst n1.
  cbn [visible name with_name with_visible Bool.eqb].
  destruct (len_is_zero (cls n +:+ HIDDEN)) eqn:Z.
  { apply len_is_zero_spec in Z. by apply append_nonempty in Z. }
  rewrite (replace_hidden_app (cls n)) by done.
  destruct n; cbn in *. by subst.
Qed.

(** [_hideshow] twice gives the store back, for a visible node and for a
    hidden one that carries the marker, as long as the name proper is not
    empty and holds no marker of its own. *)
Theorem hideshow_twice_is_identity w self n base :
  objs w !! self = Some n ->
  base <> "" -> str_contains HIDDEN base = false ->
  (visible n = true /\ name n = base) \/
  (visible n = false /\ name n = base +:+ " [Hidden]") ->
  bind (_hideshow self) (fun _ => _hideshow self) w = Val tt w.
Proof.
  intros E Hb Hm Cases. change " [Hidden]" with HIDDEN in Cases.
  unfold bind. rewrite (_hideshow_at _ _ n), (set_visible_at _ _ n) by done.
  erewrite _hideshow_at by apply objs_put_eq.
  erewrite set_visible_at by apply objs_put_eq.
  rewrite put_put. f_equal. apply put_id. rewrite E. f_equal.
  assert (NE : forall s, s <> "" -> len_is_zero s = false).
  { intros s Hs. destruct (len_is_zero s) eqn:Z; [|done].
    by apply len_is_zero_spec in Z. }
  destruct Cases as [[V N]|[V N]].
  - unfold visible_set, name_after.
    rewrite V. cbn [negb Bool.eqb visible name with_name with_visible].
    rewrite N, (NE base), Hm by done.
    cbn [negb Bool.eqb visible name with_name with_visible].
    unfold fmt_hidden.
    rewrite (NE (base +:+ HIDDEN)) by by apply append_nonempty.
    rewrite replace_hidden_app by done.
    destruct n; cbn in *. by subst.
  - unfold visible_set, name_after.
    rewrite V. cbn [negb Bool.eqb visible name with_name with_visible].
    rewrite N, (NE (base +:+ HIDDEN)) by by apply append_nonempty.
    rewrite replace_hidden_app by done.
    cbn [negb Bool.eqb visible name with_name with_visible].
    rewrite (NE base), Hm by done. cbn [negb].
    unfold fmt_hidden. destruct n; cbn in *. by subst.
Qed.

(** *** More of the figure helpers *)

(** The loop of [figure] stops at the first scene of [engine.scenes] that
    bears the name, and finds none only if no scene bears it; it leaves the
    store alone. *)
Theorem find_scene_finds_the_first nm l w :
  (forall s, s ∈ l -> is_Some (objs w !! s)) ->
  exists r,
    find_scene nm l w = Val r w /\
    match r with
    | Some s =>
        exists pre post n,
          l = pre ++ s :: post /\ objs w !! s = Some n /\ name n = nm /\
          forall s' n', s' ∈ pre -> objs w !! s' = Some n' -> name n' <> nm
    | None =>
        forall s n, s ∈ l -> objs w !! s = Some n -> name n <> nm
    end.
Proof.
  induction l as [|a l IH]; intros Live.
  - exists None. split; [done|]. intros s n In. by apply elem_of_nil in In.
  - destruct (Live a) as [na Ea]; [apply elem_of_cons; by left|].
    cbn [find_scene]. unfold bind. rewrite (getattr_at _ _ na) by done.
    destruct (String.eqb_spec (name na) nm) as [Heq|Hne].
    + exists (Some a). split; [done|]. exists [], l, na.
      repeat split; try done. intros s' n' In. by apply elem_of_nil in In.
    + destruct IH as (r & Run & Spec).
      { intros s In. apply Live, elem_of_cons. by right. }
      exists r. split; [done|]. destruct r as [s|].
      * destruct Spec as (pre & post & n & -> & Es & Hn & Before).
        exists (a :: pre), post, n. repeat split; try done.
        intros s' n' [->|In]%elem_of_cons Es'.
        -- congruence.
        -- by eapply Before.
      * intros s n [->|In]%elem_of_cons Es.
        -- congruence.
        -- by eapply Spec.
Qed.

(** When a scene bears the name, [figure] makes the first such scene current
    and creates none; the scene comes back with the colours asked for, or
    those of the preferences.  An integer [k] asks for ['TVTK Scene k']. *)
Theorem figure_selects_the_named_scene nm bg fg w w0 s w2 n tv :
  get_engine w = Val tt w0 ->
  find_scene nm (scenes (engine w0)) w0 = Val (Some s) w0 ->
  view 40 50 (with_engine (mkEngine (scenes (engine w0)) (Some s)) w0)
    = Val tt w2 ->
  current_scene (engine w2) = Some s ->
  objs w2 !! s = Some n -> scene n = Some tv ->
  figure (NameStr nm) bg fg w
    = Val (Some s) (put s (coloured bg fg tv n) w2) /\
  (forall k, fmt_tvtk_scene k = nm ->
     figure (NameInt k) bg fg w
       = Val (Some s) (put s (coloured bg fg tv n) w2)).
Proof.
  intros G F V C E S.
  assert (Str : figure (NameStr nm) bg fg w
                = Val (Some s) (put s (coloured bg fg tv n) w2)).
  { unfold figure, bind, engine_scenes, engine_current_scene,
      set_engine_current_scene.
    rewrite G, F, V, C.
    erewrite setattr_scene_at by done.
    erewrite setattr_scene_at; [|apply objs_put_eq|done].
    by rewrite put_put. }
  split; [exact Str|]. intros k <-. exact Str.
Qed.

(** When no scene bears the name, [figure] asks the engine for a new scene
    and gives the name to whatever scene is current then; if none is, the
    assignment of the name raises [AttributeError]. *)
Theorem figure_names_the_new_scene nm bg fg w w0 w1 :
  get_engine w = Val tt w0 ->
  find_scene nm (scenes (engine w0)) w0 = Val None w0 ->
  engine_new_scene w0 = Val tt w1 ->
  (current_scene (engine w1) = None ->
     figure (NameStr nm) bg fg w = Exc AttributeError w1) /\
  (forall c nc w2 n tv,
     current_scene (engine w1) = Some c -> objs w1 !! c = Some nc ->
     view 40 50 (put c (with_name nm nc) w1) = Val tt w2 ->
     current_scene (engine w2) = Some c ->
     objs w2 !! c = Some n -> scene n = Some tv ->
     figure (NameStr nm) bg fg w
       = Val (Some c) (put c (coloured bg fg tv n) w2)).
Proof.
  intros G F N. split.
  - intros C.
    unfold figure, bind, engine_scenes, engine_current_scene.
    by rewrite G, F, N, C.
  - intros c nc w2 n tv C Ec V C2 E S.
    unfold figure, bind, engine_scenes, engine_current_scene.
    rewrite G, F, N, C. cbn [setattr_py].
    rewrite (setattr_at _ _ nc) by done. rewrite V, C2.
    erewrite setattr_scene_at by done.
    erewrite setattr_scene_at; [|apply objs_put_eq|done].
    by rewrite put_put.
Qed.

(** Whatever the arguments, a scene that [figure] returns is the current
    one, has a render window, and that window has the colours asked for or
    those of the preferences. *)
Theorem figure_returns_a_coloured_scene nm bg fg w r w' :
  figure nm bg fg w = Val r w' ->
  exists s n tv,
    r = Some s /\ current_scene (engine w') = Some s /\
    objs w' !! s = Some n /\ scene n = Some tv /\
    background tv = colour_or options_background_color bg /\
    foreground tv = colour_or options_foreground_color fg.
Proof.
  unfold figure. unfold bind at 1.
  destruct (get_engine w) as [[] w0|]; [|done].
  unfold bind at 1.
  match goal with
  | |- context [match ?m w0 with _ => _ end] =>
      destruct (m w0) as [[] w1|]; [|done]
  end.
  unfold bind at 1. destruct (view 40 50 w1) as [[] w2|]; [|done].
  unfold bind at 1. unfold engine_current_scene at 1.
  unfold bind at 1.
  destruct (setattr_scene _ _ w2) as [[] w3|] eqn:S1; [|done].
  unfold bind at 1.
  destruct (setattr_scene _ _ w3) as [[] w4|] eqn:S2; [|done].
  intros [= <- <-].
  apply setattr_scene_returns in S1 as (s & n & tv & Hs & E & Sc & ->).
  apply setattr_scene_returns in S2 as (s' & n' & tv' & Hs' & E' & Sc' & ->).
  rewrite Hs in Hs'. injection Hs' as <-.
  rewrite objs_put_eq in E'. injection E' as <-.
  cbn in Sc'. injection Sc' as <-.
  do 3 eexists. split; [done|]. split; [done|].
  split; [apply objs_put_eq|]. split; [done|].
  by destruct bg, fg.
Qed.

(** Once [gcf] has returned a figure, asking again returns the same figure
    and changes nothing, provided [get_engine] finds the engine as it is. *)
Theorem gcf_again_returns_the_same_figure w r w' :
  gcf w = Val r w' ->
  get_engine w' = Val tt w' ->
  gcf w' = Val r w'.
Proof.
  intros G Ge.
  assert (C : exists s, r = Some s /\ current_scene (engine w') = Some s).
  { revert G. unfold gcf, bind, engine_current_scene.
    destruct (get_engine w) as [[] w0|]; [|done].
    destruct (current_scene (engine w0)) as [s|] eqn:C.
    - intros [= <- <-]. by exists s.
    - intros F. apply figure_returns in F as (s & n & tv & -> & C' & _).
      by exists s. }
  destruct C as (s & -> & C).
  unfold gcf, bind, engine_current_scene. by rewrite Ge, C.
Qed.

(** Without a render window on the current scene, [clf] gives up at its
    first assignment: it returns, and the children are still there. *)
Theorem clf_gives_up_without_render_window w s w0 n :
  gcf w = Val (Some s) w0 -> objs w0 !! s = Some n -> scene n = None ->
  clf w = Val tt w0 /\ objs w0 !! s = Some n.
Proof.
  intros G E S. split; [|done].
  unfold clf, try_except, clf_body, bind. rewrite G.
  unfold setattr_scene, bind. cbn [getattr_py].
  by rewrite (getattr_at _ _ n), S.
Qed.

(** With a render window but no [children] list on the current scene, the
    [AttributeError] comes after rendering was switched off: [clf] returns
    and rendering stays off. *)
Theorem clf_leaves_rendering_off_without_children w s w0 n tv :
  gcf w = Val (Some s) w0 -> objs w0 !! s = Some n ->
  scene n = Some tv -> children n = None ->
  exists w' n',
    clf w = Val tt w' /\ objs w' !! s = Some n' /\
    disable_render <$> scene n' = Some true /\ children n' = None.
Proof.
  intros G E S C.
  set (n1 := with_scene (Some (with_disable_render true tv)) n).
  exists (put s n1 w0), n1.
  split; [|split; [apply objs_put_eq|done]].
  unfold clf, try_except, clf_body, bind. rewrite G.
  erewrite setattr_scene_at by done. fold n1.
  erewrite get_children_absent; [done|apply objs_put_eq|done].
Qed.

(** On a figure without a render window [draw] returns without rendering
    and [savefig] raises [AttributeError]; with one, they are the [render] and
    the [save] of that window. *)
Theorem draw_and_savefig_on_the_current_figure w s w0 n filename size kwargs :
  gcf w = Val (Some s) w0 -> objs w0 !! s = Some n ->
  (scene n = None ->
     draw w = Val tt w0 /\
     savefig filename size kwargs w = Exc AttributeError w0) /\
  (forall tv, scene n = Some tv ->
     draw w = tvtk_render tv w0 /\
     savefig filename size kwargs w = tvtk_save tv filename size kwargs w0).
Proof.
  intros G E. split.
  - intros S. unfold draw, savefig, render, bind. rewrite G.
    cbn [getattr_py]. by rewrite !(getattr_at _ _ n), S.
  - intros tv S. unfold draw, savefig, render, bind. rewrite G.
    cbn [getattr_py]. by rewrite !(getattr_at _ _ n), S.
Qed.

End Further.

(** ** The further properties at work in the small session *)

(** The scene at 0 shows its child behind an adder node: the entry 1 of the
    tree is the child 0.  A childless-looking list of a class without an
    override is indexed as it stands. *)
Lemma tno_delete_child_deletes_at_index_witness :
  tno_delete_child 0 None 1 family_world
    = Val tt (put 0 (with_children [] demo_scene) family_world) /\
  tno_delete_child 0 None 0 plain_world
    = Val tt (put 0 (with_children [8] plain_parent) plain_world).
Proof.
  split.
  - refine (proj1 (proj2 (tno_delete_child_deletes_at_index
                            family_world 0 demo_scene [1] [99; 1] None
                            _ _ _)) _ 0 _);
      [reflexivity | reflexivity | reflexivity | cbn; lia | cbn; lia].
  - refine (proj1 (tno_delete_child_deletes_at_index
                     plain_world 0 plain_parent [7; 8] [7; 8] None
                     _ _ _) _ 0 _);
      [reflexivity | reflexivity | reflexivity | cbn; lia | cbn; lia].
Defined.

Lemma tno_delete_child_errors_witness :
  tno_delete_child 0 None 2 plain_world = Exc IndexError plain_world /\
  tno_delete_child 0 None 3 family_world = Exc IndexError family_world /\
  tno_delete_child 1 None 0 family_world = Exc AttributeError family_world.
Proof.
  split; [|split].
  - refine (proj1 (tno_delete_child_errors
                     plain_world 0 plain_parent None 2 _)
                  [7; 8] [7; 8] _ _ _ _);
      [reflexivity | reflexivity | reflexivity | cbn; lia | cbn; lia].
  - refine (proj1 (proj2 (tno_delete_child_errors
                            family_world 0 demo_scene None 3 _))
                  [99; 1] [1] _ _ _ _);
      [reflexivity | reflexivity | reflexivity | cbn; lia | cbn; lia].
  - refine (proj2 (proj2 (proj2 (proj2 (tno_delete_child_errors
                                          family_world 1 demo_child None 0
                                          _)))) _ _); reflexivity.
Defined.

Lemma tno_get_label_names_once_witness :
  exists w1 : World string demo_Color,
    tno_get_label 0 None unnamed_world = Val "Glyph" w1 /\
    (name unnamed_node <> "" -> "Glyph" = name unnamed_node /\
                                w1 = unnamed_world) /\
    (name unnamed_node = "" ->
     "Glyph" = cls unnamed_node /\
     objs w1 !! 0 = Some (with_name "Glyph" unnamed_node)) /\
    tno_get_label 0 (Some 7) w1 = Val "Glyph" w1.
Proof.
  refine (tno_get_label_names_once unnamed_world 0 unnamed_node
                                   None (Some 7) _).
  reflexivity.
Defined.

Lemma setstate_on_running_applies_at_once_witness :
  exists w' : World string demo_Color,
    __setstate__ 0 "abc" running_world = Val tt w' /\
    log w' = [Applied 0 true "abc"] /\
    objs w' !! 0 = Some (mkNode "Glyph" "abc" true None true "" None None).
Proof.
  refine (setstate_on_running_applies_at_once
            running_world 0 (with__is_running true demo_node) "abc" _ _ _);
    [reflexivity | reflexivity | discriminate].
Defined.

Lemma setstate_twice_keeps_the_last_witness :
  bind (__setstate__ 0 "abc") (fun _ => __setstate__ 0 "xyz") demo_world =
    __setstate__ 0 "xyz" demo_world.
Proof.
  refine (setstate_twice_keeps_the_last demo_world 0 demo_node "abc" "xyz"
                                        _ _); reflexivity.
Defined.

Lemma started_copy_gets_the_state_witness :
  exists new (w1 w2 : World string demo_Color),
    __deepcopy__ 0 [] demo_world = Val new w1 /\
    start new w1 = Val tt w2 /\
    log w2 = [Applied new true "glyph"] /\
    objs w2 !! 0 = Some demo_node /\
    (_saved_state demo_node = "" ->
     demo_loads (String "S" (name demo_node)) = name demo_node ->
     log w2 = [Applied new true "glyph"]).
Proof.
  refine (started_copy_gets_the_state demo_world 0 demo_node [] _ _);
    [reflexivity | discriminate].
Defined.

Lemma copy_of_copy_carries_the_same_blob_witness :
  exists c1 (w1 : World string demo_Color) c2 (w2 : World string demo_Color)
         n1 n2,
    __deepcopy__ 0 [] demo_world = Val c1 w1 /\
    __deepcopy__ c1 [] w1 = Val c2 w2 /\
    c1 <> 0 /\ c2 <> 0 /\ c2 <> c1 /\
    objs w2 !! c1 = Some n1 /\ objs w2 !! c2 = Some n2 /\
    _saved_state n1 = "Sglyph" /\ _saved_state n2 = "Sglyph" /\
    objs w2 !! 0 = Some demo_node.
Proof.
  refine (copy_of_copy_carries_the_same_blob demo_world 0 demo_node [] [] _ _);
    [reflexivity | discriminate].
Defined.

Lemma hiding_an_unnamed_node_names_it_witness :
  exists w1 w2 : World string demo_Color,
    set_visible 0 false unnamed_world = Val tt w1 /\
    objs w1 !! 0 =
      Some (with_name "Glyph [Hidden]" (with_visible false unnamed_node)) /\
    set_visible 0 true w1 = Val tt w2 /\
    objs w2 !! 0 = Some (with_name "Glyph" unnamed_node).
Proof.
  refine (hiding_an_unnamed_node_names_it unnamed_world 0 unnamed_node
                                          _ _ _ _ _);
    [reflexivity | reflexivity | reflexivity | discriminate | reflexivity].
Defined.

Lemma hideshow_twice_is_identity_witness :
  bind (_hideshow 0) (fun _ => _hideshow 0) demo_world = Val tt demo_world.
Proof.
  refine (hideshow_twice_is_identity demo_world 0 demo_node "glyph" _ _ _ _);
    [reflexivity | discriminate | reflexivity | left; split; reflexivity].
Defined.

Lemma family_scenes_are_live :
  forall s, s ∈ [0] -> is_Some (objs family_world !! s).
Proof. intros s ->%list_elem_of_singleton. by exists demo_scene. Qed.

Lemma find_scene_finds_the_first_witness :
  exists r,
    find_scene "TVTK Scene 1" [0] family_world = Val r family_world /\
    match r with
    | Some s =>
        exists pre post n,
          [0] = pre ++ s :: post /\ objs family_world !! s = Some n /\
          name n = "TVTK Scene 1" /\
          forall s' n', s' ∈ pre -> objs family_world !! s' = Some n' ->
                        name n' <> "TVTK Scene 1"
    | None =>
        forall s n, s ∈ [0] -> objs family_world !! s = Some n ->
                    name n <> "TVTK Scene 1"
    end.
Proof.
  exact (find_scene_finds_the_first "TVTK Scene 1" [0] family_world
                                    family_scenes_are_live).
Defined.

Lemma figure_selects_the_named_scene_witness :
  figure (NameStr "TVTK Scene 1") None (Some (3, 3, 3)) family_world
    = Val (Some 0)
          (put 0 (coloured None (Some (3, 3, 3)) demo_tvtk demo_scene)
               family_world) /\
  (forall k, fmt_tvtk_scene k = "TVTK Scene 1" ->
     figure (NameInt k) None (Some (3, 3, 3)) family_world
       = Val (Some 0)
             (put 0 (coloured None (Some (3, 3, 3)) demo_tvtk demo_scene)
                  family_world)).
Proof.
  refine (figure_selects_the_named_scene
            "TVTK Scene 1" None (Some (3, 3, 3)) family_world family_world 0
            family_world demo_scene demo_tvtk _ _ _ _ _ _); reflexivity.
Defined.

Lemma figure_names_the_new_scene_witness :
  let w1 := world_of (engine_new_scene demo_world) in
  let nc := with_scene (Some demo_tvtk) (trait_defaults "Scene") in
  figure (NameStr "plot") None None demo_world
    = Val (Some 1)
          (put 1 (coloured None None demo_tvtk (with_name "plot" nc))
               (put 1 (with_name "plot" nc) w1)).
Proof.
  intros w1 nc.
  refine (proj2 (figure_names_the_new_scene
                   "plot" None None demo_world demo_world w1 _ _ _)
                1 nc (put 1 (with_name "plot" nc) w1)
                (with_name "plot" nc) demo_tvtk _ _ _ _ _ _);
    reflexivity.
Defined.

Lemma figure_returns_a_coloured_scene_witness :
  exists s n tv,
    Some 1 = Some s /\
    current_scene (engine (world_of (figure NameNone None None demo_world)))
      = Some s /\
    objs (world_of (figure NameNone None None demo_world)) !! s = Some n /\
    scene n = Some tv /\
    background tv = (5, 5, 5) /\ foreground tv = (9, 9, 9).
Proof.
  refine (figure_returns_a_coloured_scene
            NameNone None None demo_world (Some 1)
            (world_of (figure NameNone None None demo_world)) _).
  vm_compute. reflexivity.
Defined.

Lemma gcf_again_returns_the_same_figure_witness :
  gcf (world_of (gcf demo_world)) = Val (Some 1) (world_of (gcf demo_world)).
Proof.
  refine (gcf_again_returns_the_same_figure
            demo_world (Some 1) (world_of (gcf demo_world)) _ _).
  - vm_compute. reflexivity.
  - reflexivity.
Defined.

Lemma clf_gives_up_without_render_window_witness :
  clf windowless_world = Val tt windowless_world /\
  objs windowless_world !! 0 = Some windowless_scene.
Proof.
  refine (clf_gives_up_without_render_window
            windowless_world 0 windowless_world windowless_scene _ _ _);
    reflexivity.
Defined.

Lemma clf_leaves_rendering_off_without_children_witness :
  exists (w' : World string demo_Color) n',
    clf childless_world = Val tt w' /\ objs w' !! 0 = Some n' /\
    disable_render <$> scene n' = Some true /\ children n' = None.
Proof.
  refine (clf_leaves_rendering_off_without_children
            childless_world 0 childless_world childless_figure demo_tvtk
            _ _ _ _); reflexivity.
Defined.

Lemma draw_and_savefig_on_the_current_figure_witness :
  (draw windowless_world = Val tt windowless_world /\
   savefig "out.png" (Some (640, 480)%Z) [] windowless_world
     = Exc AttributeError windowless_world) /\
  (draw family_world = Val tt family_world /\
   savefig "out.png" None [] family_world = Val tt family_world).
Proof.
  split.
  - refine (proj1 (draw_and_savefig_on_the_current_figure
                     windowless_world 0 windowless_world windowless_scene
                     "out.png" (Some (640, 480)%Z) [] _ _) _); reflexivity.
  - refine (proj2 (draw_and_savefig_on_the_current_figure
                     family_world 0 family_world demo_scene
                     "out.png" None [] _ _) demo_tvtk _); reflexivity.
Defined.
